(** * Record editors of the forestry dashboard

    A shallow embedding of the three React pages of the repository:

    - [AdminCoursesPage]   (course list, modal form, create / update / delete),
    - [AdminDashboardPage] (announcement list, dialog form, create / update /
      delete),
    - [StudentDashboard]   (read-only announcement list).

    Each [useState] cell is a field of the page's [State] record; each event
    handler is a computation in a small state-and-exception monad ([Task])
    that also records, in order, every effect the handler has on the outside
    world ([Effect]): HTTP requests, toasts, alerts, prompts, console output
    and page reloads.  The backend, the answers to [window.confirm] and the
    content of [localStorage] are inputs ([Env]).

    A handler runs from the state it was rendered with to the state React
    holds once the handler and the requests it started have settled; no
    other event is interleaved. *)

From Stdlib Require Import String List Bool PrimFloat.
Import ListNotations.
Local Open Scope string_scope.
Local Open Scope list_scope.

(* ================================================================== *)
(** ** JavaScript values *)
(* ================================================================== *)

Module Js.

(** A JavaScript [number] is an IEEE 754 binary64 value. *)
Definition number : Set := float.

(** [isNaN(x)] on a value that already is a number. *)
Definition isNaN (x : number) : bool := PrimFloat.is_nan x.

(** [ToBoolean] on a string: the empty string is the only falsy one. *)
Definition truthy (s : string) : bool :=
  match s with
  | EmptyString => false
  | String _ _ => true
  end.

(** [ToBoolean] on a value of type [string | null]. *)
Definition truthy_or_null (v : option string) : bool :=
  match v with
  | Some s => truthy s
  | None => false
  end.

(** [a || b] where [a] is an optional string property. *)
Definition or_else (a : option string) (b : string) : string :=
  match a with
  | Some s => if truthy s then s else b
  | None => b
  end.

(** [`${v}`] for [v : string | null]. *)
Definition interpolate (v : option string) : string :=
  match v with
  | Some s => s
  | None => "null"
  end.

(** The union type [string | P] of a reference that the backend returns
    either as a bare identifier or as a populated object.  The test
    [typeof v === 'object'] tells the two apart: it holds of [Obj o] and
    not of [Str s]. *)
Inductive StringOr (P : Type) : Type :=
| Str (s : string)
| Obj (o : P).
Arguments Str {P} s.
Arguments Obj {P} o.

End Js.
Import Js.

(* ================================================================== *)
(** ** Records exchanged with the backend *)
(* ================================================================== *)

Module LecturerPopulated.
Record t : Type := mk
  { _id : string;
    fullName : option string;
    email : option string;
    name : option string }.
End LecturerPopulated.

Module DepartmentPopulated.
Record t : Type := mk { _id : string; name : string }.
End DepartmentPopulated.

Module LevelPopulated.
Record t : Type := mk { _id : string; name : string }.
End LevelPopulated.

Module Course.
Record t : Type := mk
  { _id : string;
    courseCode : string;
    courseTitle : string;
    creditUnits : number;
    lecturer : StringOr LecturerPopulated.t;
    level : StringOr LevelPopulated.t;
    semester : string;
    department : StringOr DepartmentPopulated.t }.
End Course.

Module Lecturer.
Record t : Type := mk { _id : string; name : string }.
End Lecturer.

Module Department.
Record t : Type := mk { _id : string; name : string }.
End Department.

Module Announcement.
Record t : Type := mk
  { _id : string;
    title : string;
    message : string;
    createdAt : string }.
End Announcement.

Module Stats.
Record t : Type := mk
  { totalUsers : number;
    totalDepartments : number;
    totalCourses : number;
    totalAnnouncements : number }.
End Stats.

(** The object literal [courseData] built by the course submit handler. *)
Module CourseData.
Record t : Type := mk
  { courseCode : string;
    courseTitle : string;
    creditUnits : number;
    lecturer : string;
    level : string;
    semester : string;
    department : string }.
End CourseData.

(** The JSON object answered to an announcement mutation; the page reads
    its [error] property only. *)
Module Reply.
Record t : Type := mk { error : option string }.
End Reply.

(* ================================================================== *)
(** ** Requests and observable effects *)
(* ================================================================== *)

Inductive Method : Set := GET | POST | PUT | DELETE.

Inductive Body : Type :=
| NoBody
| CourseJson (courseData : CourseData.t)
| AnnouncementJson (title message : string).

Record Request : Type := mkRequest
  { method : Method;
    url : string;
    headers : list (string * string);
    body : Body }.

Inductive Effect : Type :=
| Sent (r : Request)            (* a request handed to the network *)
| ToastError (msg : string)     (* toast.error *)
| ToastSuccess (msg : string)   (* toast.success *)
| Alert (msg : string)          (* alert *)
| Confirm (msg : string)        (* window.confirm prompt shown *)
| ConsoleError (msg : string)   (* console.error *)
| Navigate (path : string)      (* router.push / router.replace *)
| Reload.                       (* location.reload *)

(** What a promise returned by [axios] settles to: the response data when
    the status is 2xx, a rejection on a network error or any other status. *)
Inductive AxiosResult (A : Type) : Type :=
| AxiosResolved (data : A)
| AxiosRejected.
Arguments AxiosResolved {A} data.
Arguments AxiosRejected {A}.

(** What a promise returned by [fetch] settles to: a rejection on a network
    error, otherwise a response with its [ok] flag whatever the status; the
    body is [None] when [res.json()] would reject. *)
Inductive FetchResult (A : Type) : Type :=
| FetchRejected
| FetchResponse (ok : bool) (json : option A).
Arguments FetchRejected {A}.
Arguments FetchResponse {A} ok json.

(** The REST backend: one answer per request.  Answers carry the payload
    type that the pages declare for the endpoint. *)
Record Backend : Type := mkBackend
  { courses_endpoint : Request -> AxiosResult (list Course.t);
    lecturers_endpoint : Request -> AxiosResult (list Lecturer.t);
    departments_endpoint : Request -> AxiosResult (list Department.t);
    course_mutation : Request -> AxiosResult unit;
    stats_endpoint : Request -> FetchResult Stats.t;
    announcements_endpoint : Request -> FetchResult (list Announcement.t);
    announcement_mutation : Request -> FetchResult Reply.t }.

Record Env : Type := mkEnv
  { backend : Backend;
    confirm_answer : string -> bool;          (* the user's answer to a prompt *)
    localStorage : string -> option string }.

(* ================================================================== *)
(** ** The handler monad *)
(* ================================================================== *)

Inductive Completion (A : Type) : Type :=
| Returned (a : A)
| Thrown.
Arguments Returned {A} a.
Arguments Thrown {A}.

Section Task.

Variable S : Type.

(** A computation over the page state [S] that appends to the effect log
    and either returns or throws. *)
Definition Task (A : Type) : Type :=
  S -> list Effect -> Completion A * S * list Effect.

Definition ret {A : Type} (a : A) : Task A :=
  fun st log => (Returned a, st, log).

Definition bind {A B : Type} (m : Task A) (k : A -> Task B) : Task B :=
  fun st log =>
    match m st log with
    | (Returned a, st', log') => k a st' log'
    | (Thrown, st', log') => (Thrown, st', log')
    end.

Definition throw {A : Type} : Task A :=
  fun st log => (Thrown, st, log).

(** [try { m } catch { h }] *)
Definition try_catch {A : Type} (m h : Task A) : Task A :=
  fun st log =>
    match m st log with
    | (Returned a, st', log') => (Returned a, st', log')
    | (Thrown, st', log') => h st' log'
    end.

(** [try { m } finally { f }] *)
Definition try_finally {A : Type} (m : Task A) (f : Task unit) : Task A :=
  fun st log =>
    match m st log with
    | (c, st', log') =>
        match f st' log' with
        | (Returned _, st'', log'') => (c, st'', log'')
        | (Thrown, st'', log'') => (Thrown, st'', log'')
        end
    end.

(** The state as the running closure sees it. *)
Definition get : Task S :=
  fun st log => (Returned st, st, log).

(** A [useState] setter. *)
Definition modify (f : S -> S) : Task unit :=
  fun st log => (Returned tt, f st, log).

Definition emit (e : Effect) : Task unit :=
  fun st log => (Returned tt, st, log ++ [e]).

(** Run a handler from a state, with an empty log. *)
Definition run {A : Type} (m : Task A) (st : S) : Completion A * S * list Effect :=
  m st [].

Definition state_after {A : Type} (m : Task A) (st : S) : S :=
  snd (fst (run m st)).

Definition effects_of {A : Type} (m : Task A) (st : S) : list Effect :=
  snd (run m st).

End Task.

Arguments ret {S A} a.
Arguments bind {S A B} m k.
Arguments throw {S A}.
Arguments try_catch {S A} m h.
Arguments try_finally {S A} m f.
Arguments get {S}.
Arguments modify {S} f.
Arguments emit {S} e.
Arguments run {S A} m st.
Arguments state_after {S A} m st.
Arguments effects_of {S A} m st.

Declare Scope task_scope.
Delimit Scope task_scope with task.
Notation "x <- c1 ;; c2" := (bind c1 (fun x => c2))
  (at level 61, c1 at next level, right associativity) : task_scope.
Notation "c1 ;; c2" := (bind c1 (fun _ => c2))
  (at level 61, right associativity) : task_scope.
Local Open Scope task_scope.

(** *** Browser and library calls *)

Section Calls.

Variable S : Type.
Variable env : Env.

Definition toast_error (msg : string) : Task S unit := emit (ToastError msg).
Definition toast_success (msg : string) : Task S unit := emit (ToastSuccess msg).
Definition alert (msg : string) : Task S unit := emit (Alert msg).
Definition console_error (msg : string) : Task S unit := emit (ConsoleError msg).
Definition location_reload : Task S unit := emit Reload.
Definition router_push (path : string) : Task S unit := emit (Navigate path).
Definition router_replace (path : string) : Task S unit := emit (Navigate path).

(** [window.confirm(msg)] *)
Definition confirm (msg : string) : Task S bool :=
  emit (Confirm msg) ;; ret (confirm_answer env msg).

(** [localStorage.getItem(key)] *)
Definition localStorage_getItem (key : string) : Task S (option string) :=
  ret (localStorage env key).

(** Modelled from the spec: the axios instance exported by [lib/axios] is
    not part of the sources at hand.  The spec attaches the bearer token
    to announcement mutation calls only, and those go through [fetch]; the
    instance therefore sends a request as it is given, adding no header. *)
Definition axios {A : Type} (answer : Request -> AxiosResult A)
    (m : Method) (u : string) (b : Body) : Task S A :=
  let req := mkRequest m u [] b in
  emit (Sent req) ;;
  match answer req with
  | AxiosResolved data => ret data
  | AxiosRejected => throw
  end.

(** [fetch(url, init)]: the response object, or a rejection. *)
Definition fetch {A : Type} (answer : Request -> FetchResult A)
    (req : Request) : Task S (bool * option A) :=
  emit (Sent req) ;;
  match answer req with
  | FetchResponse ok json => ret (ok, json)
  | FetchRejected => throw
  end.

(** [res.json()] *)
Definition json_of {A : Type} (res : bool * option A) : Task S A :=
  match snd res with
  | Some data => ret data
  | None => throw
  end.

End Calls.

Arguments toast_error {S} msg.
Arguments toast_success {S} msg.
Arguments alert {S} msg.
Arguments console_error {S} msg.
Arguments location_reload {S}.
Arguments router_push {S} path.
Arguments router_replace {S} path.
Arguments confirm {S} env msg.
Arguments localStorage_getItem {S} env key.
Arguments axios {S A} answer m u b.
Arguments fetch {S A} answer req.
Arguments json_of {S A} res.

(* ================================================================== *)
(** ** AdminCoursesPage *)
(* ================================================================== *)

Module AdminCoursesPage.

Record State : Type := mkState
  { courses : list Course.t;
    lecturers : list Lecturer.t;
    departments : list Department.t;
    isModalOpen : bool;
    loading : bool;
    courseCode : string;
    courseTitle : string;
    creditUnits : number;
    lecturer : string;
    level : string;
    semester : string;
    department : string;
    editId : option string }.

(** The values passed to [useState]. *)
Definition initial : State :=
  mkState [] [] [] false false "" "" 0%float "" "" "" "" None.

(** The [useState] setters, as functions on the record. *)
Definition with_courses v s := mkState v (lecturers s) (departments s) (isModalOpen s) (loading s) (courseCode s) (courseTitle s) (creditUnits s) (lecturer s) (level s) (semester s) (department s) (editId s).
Definition with_lecturers v s := mkState (courses s) v (departments s) (isModalOpen s) (loading s) (courseCode s) (courseTitle s) (creditUnits s) (lecturer s) (level s) (semester s) (department s) (editId s).
Definition with_departments v s := mkState (courses s) (lecturers s) v (isModalOpen s) (loading s) (courseCode s) (courseTitle s) (creditUnits s) (lecturer s) (level s) (semester s) (department s) (editId s).
Definition with_isModalOpen v s := mkState (courses s) (lecturers s) (departments s) v (loading s) (courseCode s) (courseTitle s) (creditUnits s) (lecturer s) (level s) (semester s) (department s) (editId s).
Definition with_loading v s := mkState (courses s) (lecturers s) (departments s) (isModalOpen s) v (courseCode s) (courseTitle s) (creditUnits s) (lecturer s) (level s) (semester s) (department s) (editId s).
Definition with_courseCode v s := mkState (courses s) (lecturers s) (departments s) (isModalOpen s) (loading s) v (courseTitle s) (creditUnits s) (lecturer s) (level s) (semester s) (department s) (editId s).
Definition with_courseTitle v s := mkState (courses s) (lecturers s) (departments s) (isModalOpen s) (loading s) (courseCode s) v (creditUnits s) (lecturer s) (level s) (semester s) (department s) (editId s).
Definition with_creditUnits v s := mkState (courses s) (lecturers s) (departments s) (isModalOpen s) (loading s) (courseCode s) (courseTitle s) v (lecturer s) (level s) (semester s) (department s) (editId s).
Definition with_lecturer v s := mkState (courses s) (lecturers s) (departments s) (isModalOpen s) (loading s) (courseCode s) (courseTitle s) (creditUnits s) v (level s) (semester s) (department s) (editId s).
Definition with_level v s := mkState (courses s) (lecturers s) (departments s) (isModalOpen s) (loading s) (courseCode s) (courseTitle s) (creditUnits s) (lecturer s) v (semester s) (department s) (editId s).
Definition with_semester v s := mkState (courses s) (lecturers s) (departments s) (isModalOpen s) (loading s) (courseCode s) (courseTitle s) (creditUnits s) (lecturer s) (level s) v (department s) (editId s).
Definition with_department v s := mkState (courses s) (lecturers s) (departments s) (isModalOpen s) (loading s) (courseCode s) (courseTitle s) (creditUnits s) (lecturer s) (level s) (semester s) v (editId s).
Definition with_editId v s := mkState (courses s) (lecturers s) (departments s) (isModalOpen s) (loading s) (courseCode s) (courseTitle s) (creditUnits s) (lecturer s) (level s) (semester s) (department s) v.

Definition setCourses v : Task State unit := modify (with_courses v).
Definition setLecturers v : Task State unit := modify (with_lecturers v).
Definition setDepartments v : Task State unit := modify (with_departments v).
Definition setIsModalOpen v : Task State unit := modify (with_isModalOpen v).
Definition setLoading v : Task State unit := modify (with_loading v).
Definition setCourseCode v : Task State unit := modify (with_courseCode v).
Definition setCourseTitle v : Task State unit := modify (with_courseTitle v).
Definition setCreditUnits v : Task State unit := modify (with_creditUnits v).
Definition setLecturer v : Task State unit := modify (with_lecturer v).
Definition setLevel v : Task State unit := modify (with_level v).
Definition setSemester v : Task State unit := modify (with_semester v).
Definition setDepartment v : Task State unit := modify (with_department v).
Definition setEditId v : Task State unit := modify (with_editId v).

Definition courses_url : string := "https://forestryapi.onrender.com/courses".
Definition lecturers_url : string := "https://forestryapi.onrender.com/lecturers".
Definition departments_url : string := "https://forestryapi.onrender.com/departments".

(** [`https://forestryapi.onrender.com/courses/${id}`] *)
Definition course_url (id : option string) : string :=
  "https://forestryapi.onrender.com/courses/" ++ interpolate id.

Section Handlers.

Variable env : Env.

Definition fetchCourses : Task State unit :=
  setLoading true ;;
  try_finally
    (try_catch
       (res <- axios (courses_endpoint (backend env)) GET courses_url NoBody ;;
        setCourses res)
       (toast_error "Failed to fetch courses."))
    (setLoading false).

Definition fetchLecturers : Task State unit :=
  try_catch
    (res <- axios (lecturers_endpoint (backend env)) GET lecturers_url NoBody ;;
     setLecturers res)
    (toast_error "Failed to fetch lecturers.").

Definition fetchDepartments : Task State unit :=
  try_catch
    (res <- axios (departments_endpoint (backend env)) GET departments_url NoBody ;;
     setDepartments res)
    (toast_error "Failed to fetch departments.").

Definition resetForm : Task State unit :=
  setEditId None ;;
  setCourseCode "" ;;
  setCourseTitle "" ;;
  setCreditUnits 0%float ;;
  setLecturer "" ;;
  setLevel "" ;;
  setSemester "" ;;
  setDepartment "".

Definition openModal (course : option Course.t) : Task State unit :=
  match course with
  | Some course =>
      setEditId (Some (Course._id course)) ;;
      setCourseCode (Course.courseCode course) ;;
      setCourseTitle (Course.courseTitle course) ;;
      setCreditUnits (Course.creditUnits course) ;;
      (* Normalize to ID for form:
         [typeof v === 'object' ? v._id : v], three times *)
      setLecturer
        match Course.lecturer course with
        | Obj o => LecturerPopulated._id o
        | Str s => s
        end ;;
      setLevel
        match Course.level course with
        | Obj o => LevelPopulated._id o
        | Str s => s
        end ;;
      setSemester (Course.semester course) ;;
      setDepartment
        match Course.department course with
        | Obj o => DepartmentPopulated._id o
        | Str s => s
        end
  | None => resetForm
  end ;;
  setIsModalOpen true.

Definition closeModal : Task State unit :=
  setIsModalOpen false ;;
  resetForm.

(** The guard at the head of [handleSubmit]. *)
Definition invalid (st : State) : bool :=
  negb (truthy (courseCode st))
  || negb (truthy (courseTitle st))
  || isNaN (creditUnits st).

Definition courseData_of (st : State) : CourseData.t :=
  CourseData.mk (courseCode st) (courseTitle st) (creditUnits st)
    (lecturer st) (level st) (semester st) (department st).

(** [fetchCourses()] is called without [await]: the handler goes on as
    soon as the request is out and the fetch settles afterwards.  The
    model runs the fetch to completion in place; [closeModal], the only
    code that follows such a call, commutes with the settling part (see
    [unawaited_fetchCourses_commutes]). *)
Definition handleSubmit : Task State unit :=
  st <- get ;;
  if invalid st then
    toast_error "Please fill in all required fields."
  else
    let courseData := courseData_of st in
    try_catch
      ((if truthy_or_null (editId st) then
          axios (course_mutation (backend env)) PUT (course_url (editId st))
            (CourseJson courseData) ;;
          toast_success "Course updated."
        else
          axios (course_mutation (backend env)) POST courses_url
            (CourseJson courseData) ;;
          toast_success "Course created.") ;;
       fetchCourses ;;
       closeModal)
      (toast_error "Failed to save course.").

Definition handleDelete (id : string) : Task State unit :=
  confirmed <- confirm env "Are you sure you want to delete this course?" ;;
  if negb confirmed then ret tt
  else
    try_catch
      (axios (course_mutation (backend env)) DELETE (course_url (Some id)) NoBody ;;
       toast_success "Course deleted." ;;
       fetchCourses)
      (toast_error "Failed to delete course.").

(** The first [useEffect]: the three loads on mount. *)
Definition mount : Task State unit :=
  fetchCourses ;;
  fetchLecturers ;;
  fetchDepartments.

(** The two halves of [fetchCourses] around its [await]. *)
Definition fetchCourses_sent : Task State unit :=
  setLoading true ;;
  emit (Sent (mkRequest GET courses_url [] NoBody)).

Definition fetchCourses_settled : Task State unit :=
  match courses_endpoint (backend env) (mkRequest GET courses_url [] NoBody) with
  | AxiosResolved data => setCourses data
  | AxiosRejected => toast_error "Failed to fetch courses."
  end ;;
  setLoading false.

(** The two halves of [fetchLecturers] and of [fetchDepartments]. *)
Definition fetchLecturers_sent : Task State unit :=
  emit (Sent (mkRequest GET lecturers_url [] NoBody)).

Definition fetchLecturers_settled : Task State unit :=
  match lecturers_endpoint (backend env) (mkRequest GET lecturers_url [] NoBody) with
  | AxiosResolved data => setLecturers data
  | AxiosRejected => toast_error "Failed to fetch lecturers."
  end.

Definition fetchDepartments_sent : Task State unit :=
  emit (Sent (mkRequest GET departments_url [] NoBody)).

Definition fetchDepartments_settled : Task State unit :=
  match departments_endpoint (backend env) (mkRequest GET departments_url [] NoBody) with
  | AxiosResolved data => setDepartments data
  | AxiosRejected => toast_error "Failed to fetch departments."
  end.

(** The first [useEffect] as the browser runs it: none of the three calls
    is awaited, so the three requests leave one after the other and each
    load settles when its response arrives. *)
Definition mount_sent : Task State unit :=
  fetchCourses_sent ;;
  fetchLecturers_sent ;;
  fetchDepartments_sent.

Inductive Load : Set := Courses | Lecturers | Departments.

Definition settled (l : Load) : Task State unit :=
  match l with
  | Courses => fetchCourses_settled
  | Lecturers => fetchLecturers_settled
  | Departments => fetchDepartments_settled
  end.

End Handlers.




(** The heading of the modal and the label of its submit button. *)
Definition modal_heading (st : State) : string :=
  if truthy_or_null (editId st) then "Edit Course" else "Add New Course".

Definition submit_label (st : State) : string :=
  if truthy_or_null (editId st) then "Update" else "Add".

(** What the user can do on the page, one constructor per event handler
    wired in the markup.  A change event carries the new value of its
    control, for the credit units the result of [Number(e.target.value)]. *)
Inductive Action : Type :=
| ClickAddCourse
| ClickEdit (course : Course.t)
| ClickDelete (course : Course.t)
| ClickCancel
| SubmitForm
| ChangeCourseCode (value : string)
| ChangeCourseTitle (value : string)
| ChangeCreditUnits (value : number)
| ChangeLecturer (value : string)
| ChangeLevel (value : string)
| ChangeSemester (value : string)
| ChangeDepartment (value : string).

Definition handle (env : Env) (a : Action) : Task State unit :=
  match a with
  | ClickAddCourse => openModal None
  | ClickEdit course => openModal (Some course)
  | ClickDelete course => handleDelete env (Course._id course)
  | ClickCancel => closeModal
  | SubmitForm => handleSubmit env
  | ChangeCourseCode v => setCourseCode v
  | ChangeCourseTitle v => setCourseTitle v
  | ChangeCreditUnits v => setCreditUnits v
  | ChangeLecturer v => setLecturer v
  | ChangeLevel v => setLevel v
  | ChangeSemester v => setSemester v
  | ChangeDepartment v => setDepartment v
  end.

End AdminCoursesPage.


(* ================================================================== *)
(** ** AdminDashboardPage *)
(* ================================================================== *)

Module AdminDashboardPage.

Record State : Type := mkState
  { stats : Stats.t;
    announcements : list Announcement.t;
    title : string;
    message : string;
    submitting : bool;
    editId : option string }.

(** The values passed to [useState]. *)
Definition initial : State :=
  mkState (Stats.mk 0%float 0%float 0%float 0%float) [] "" "" false None.

Definition with_stats v s := mkState v (announcements s) (title s) (message s) (submitting s) (editId s).
Definition with_announcements v s := mkState (stats s) v (title s) (message s) (submitting s) (editId s).
Definition with_title v s := mkState (stats s) (announcements s) v (message s) (submitting s) (editId s).
Definition with_message v s := mkState (stats s) (announcements s) (title s) v (submitting s) (editId s).
Definition with_submitting v s := mkState (stats s) (announcements s) (title s) (message s) v (editId s).
Definition with_editId v s := mkState (stats s) (announcements s) (title s) (message s) (submitting s) v.

Definition setStats v : Task State unit := modify (with_stats v).
Definition setAnnouncements v : Task State unit := modify (with_announcements v).
Definition setTitle v : Task State unit := modify (with_title v).
Definition setMessage v : Task State unit := modify (with_message v).
Definition setSubmitting v : Task State unit := modify (with_submitting v).
Definition setEditId v : Task State unit := modify (with_editId v).

Definition stats_url : string := "https://forestryapi.onrender.com/admin/stats".
Definition announcements_url : string := "https://forestryapi.onrender.com/announcements".

(** [`https://forestryapi.onrender.com/announcements/${id}`] *)
Definition announcement_url (id : option string) : string :=
  "https://forestryapi.onrender.com/announcements/" ++ interpolate id.

Section Handlers.

Variable env : Env.

(** The first [useEffect]: no token, no dashboard. *)
Definition guard : Task State unit :=
  token <- localStorage_getItem env "adminToken" ;;
  if negb (truthy_or_null token) then router_replace "/login" else ret tt.

Definition fetchStats : Task State unit :=
  try_catch
    (res <- fetch (stats_endpoint (backend env)) (mkRequest GET stats_url [] NoBody) ;;
     data <- json_of res ;;
     setStats data)
    (console_error "Failed to fetch stats:").

Definition fetchAnnouncements : Task State unit :=
  try_catch
    (res <- fetch (announcements_endpoint (backend env))
              (mkRequest GET announcements_url [] NoBody) ;;
     data <- json_of res ;;
     setAnnouncements data)
    (console_error "Error fetching announcements").

Definition handleSubmit : Task State unit :=
  st <- get ;;
  if negb (truthy (title st)) || negb (truthy (message st)) then
    alert "Fill in all fields."
  else
    setSubmitting true ;;
    token <- localStorage_getItem env "adminToken" ;;
    try_finally
      (try_catch
         (let method := if truthy_or_null (editId st) then PUT else POST in
          let endpoint :=
            if truthy_or_null (editId st)
            then announcement_url (editId st)
            else announcements_url in
          res <- fetch (announcement_mutation (backend env))
                   (mkRequest method endpoint
                      [("Content-Type", "application/json");
                       ("Authorization", ("Bearer " ++ interpolate token)%string)]
                      (AnnouncementJson (title st) (message st))) ;;
          data <- json_of res ;;
          if fst res then
            alert (if truthy_or_null (editId st)
                   then "Announcement updated" else "Announcement created") ;;
            setTitle "" ;;
            setMessage "" ;;
            setEditId None ;;
            location_reload
          else
            alert (or_else (Reply.error data) "Failed to submit"))
         (alert "Server error"))
      (setSubmitting false).

Definition handleDelete (id : string) : Task State unit :=
  confirmed <- confirm env "Are you sure?" ;;
  if negb confirmed then ret tt
  else
    try_catch
      (fetch (announcement_mutation (backend env))
         (mkRequest DELETE (announcement_url (Some id)) [] NoBody) ;;
       alert "Deleted" ;;
       location_reload)
      (alert "Delete failed").

(** The second [useEffect]: the two loads on mount. *)
Definition mount : Task State unit :=
  fetchStats ;;
  fetchAnnouncements.

(** Both effects of the page, in the order they are declared. *)
Definition on_mount : Task State unit :=
  guard ;;
  mount.

(** The two halves of each load, around its [await]s. *)
Definition fetchStats_sent : Task State unit :=
  emit (Sent (mkRequest GET stats_url [] NoBody)).

Definition fetchStats_settled : Task State unit :=
  match stats_endpoint (backend env) (mkRequest GET stats_url [] NoBody) with
  | FetchResponse _ (Some data) => setStats data
  | FetchResponse _ None | FetchRejected => console_error "Failed to fetch stats:"
  end.

Definition fetchAnnouncements_sent : Task State unit :=
  emit (Sent (mkRequest GET announcements_url [] NoBody)).

Definition fetchAnnouncements_settled : Task State unit :=
  match announcements_endpoint (backend env)
          (mkRequest GET announcements_url [] NoBody) with
  | FetchResponse _ (Some data) => setAnnouncements data
  | FetchResponse _ None | FetchRejected =>
      console_error "Error fetching announcements"
  end.

End Handlers.

(** The label of the dialog trigger and the heading of the dialog. *)
Definition trigger_label (st : State) : string :=
  if truthy_or_null (editId st) then "Edit Announcement" else "Create Announcement".

Definition dialog_heading (st : State) : string :=
  if truthy_or_null (editId st) then "Edit Announcement" else "New Announcement".

(** What the user can do on the page.  The [Dialog] holding the form is
    given neither an [open] property nor an [onOpenChange] callback: opening
    and dismissing it runs no code of the page. *)
Inductive Action : Type :=
| OpenDialog
| DismissDialog
| ChangeTitle (value : string)
| ChangeMessage (value : string)
| ClickSubmit
| ClickEdit (a : Announcement.t)
| ClickDelete (a : Announcement.t).

Definition handle (env : Env) (a : Action) : Task State unit :=
  match a with
  | OpenDialog => ret tt
  | DismissDialog => ret tt
  | ChangeTitle v => setTitle v
  | ChangeMessage v => setMessage v
  | ClickSubmit => handleSubmit env
  | ClickEdit a =>
      setTitle (Announcement.title a) ;;
      setMessage (Announcement.message a) ;;
      setEditId (Some (Announcement._id a))
  | ClickDelete a => handleDelete env (Announcement._id a)
  end.

End AdminDashboardPage.

(* ================================================================== *)
(** ** StudentDashboard *)
(* ================================================================== *)

Module StudentDashboard.

Record State : Type := mkState
  { announcements : list Announcement.t;
    loading : bool }.

Definition initial : State := mkState [] true.

Definition with_announcements v s := mkState v (loading s).
Definition with_loading v s := mkState (announcements s) v.

Definition setAnnouncements v : Task State unit := modify (with_announcements v).
Definition setLoading v : Task State unit := modify (with_loading v).

Definition announcements_url : string := "https://forestryapi.onrender.com/announcements".

Section Handlers.

Variable env : Env.

Definition fetchAnnouncements : Task State unit :=
  try_finally
    (try_catch
       (res <- fetch (announcements_endpoint (backend env))
                 (mkRequest GET announcements_url [] NoBody) ;;
        data <- json_of res ;;
        setAnnouncements data)
       (console_error "Error fetching announcements:"))
    (setLoading false).

(** The [useEffect]: redirect without a token, load otherwise. *)
Definition mount : Task State unit :=
  token <- localStorage_getItem env "studentToken" ;;
  if negb (truthy_or_null token) then router_push "/login"
  else fetchAnnouncements.

End Handlers.

(** What the announcements section shows: a paragraph, or the list of the
    cached announcements. *)
Inductive View : Type :=
| Paragraph (text : string)
| Items (shown : list Announcement.t).

Definition announcements_section (st : State) : View :=
  if loading st then Paragraph "Loading announcements..."
  else if Nat.eqb (length (announcements st)) 0
       then Paragraph "No announcements at the moment."
       else Items (announcements st).

End StudentDashboard.

(* ================================================================== *)
(** ** Reading the effect log *)
(* ================================================================== *)

(** The requests of a log, in the order they were sent. *)
Fixpoint requests (log : list Effect) : list Request :=
  match log with
  | [] => []
  | Sent r :: log => r :: requests log
  | _ :: log => requests log
  end.

Definition is_mutation (r : Request) : bool :=
  match method r with
  | GET => false
  | POST | PUT | DELETE => true
  end.

(** The create, update and delete requests of a log. *)
Definition mutations (log : list Effect) : list Request :=
  filter is_mutation (requests log).

(** The notifications that reach the user: toasts and alerts.  Console
    output does not. *)
Definition notification (e : Effect) : option string :=
  match e with
  | ToastError msg | ToastSuccess msg | Alert msg => Some msg
  | _ => None
  end.

Fixpoint notifications (log : list Effect) : list string :=
  match log with
  | [] => []
  | e :: log =>
      match notification e with
      | Some msg => msg :: notifications log
      | None => notifications log
      end
  end.

(** The value of the [Authorization] header of a request, if it has one. *)
Fixpoint header (name : string) (hs : list (string * string)) : option string :=
  match hs with
  | [] => None
  | (k, v) :: hs => if String.eqb k name then Some v else header name hs
  end.

Definition authorization (r : Request) : option string :=
  header "Authorization" (headers r).

(* ================================================================== *)
(** ** Running a handler *)

(** Unfolds the monad, the browser calls and the handlers of the three
    pages, leaving the answers of the environment to case analysis. *)
Ltac run_handler :=
  cbv beta iota zeta delta
    [run state_after effects_of ret bind throw try_catch try_finally get
     modify emit toast_error toast_success alert console_error
     location_reload router_push router_replace confirm
     localStorage_getItem axios fetch json_of app fst snd
     AdminCoursesPage.fetchCourses AdminCoursesPage.fetchLecturers
     AdminCoursesPage.fetchDepartments AdminCoursesPage.resetForm
     AdminCoursesPage.openModal AdminCoursesPage.closeModal
     AdminCoursesPage.handleSubmit AdminCoursesPage.handleDelete
     AdminCoursesPage.mount AdminCoursesPage.handle
     AdminCoursesPage.fetchCourses_sent AdminCoursesPage.fetchCourses_settled
     AdminCoursesPage.setCourses AdminCoursesPage.setLecturers
     AdminCoursesPage.setDepartments AdminCoursesPage.setIsModalOpen
     AdminCoursesPage.setLoading AdminCoursesPage.setCourseCode
     AdminCoursesPage.setCourseTitle AdminCoursesPage.setCreditUnits
     AdminCoursesPage.setLecturer AdminCoursesPage.setLevel
     AdminCoursesPage.setSemester AdminCoursesPage.setDepartment
     AdminCoursesPage.setEditId
     AdminDashboardPage.guard AdminDashboardPage.fetchStats
     AdminDashboardPage.fetchAnnouncements AdminDashboardPage.handleSubmit
     AdminDashboardPage.handleDelete AdminDashboardPage.mount
     AdminDashboardPage.handle
     AdminDashboardPage.setStats AdminDashboardPage.setAnnouncements
     AdminDashboardPage.setTitle AdminDashboardPage.setMessage
     AdminDashboardPage.setSubmitting AdminDashboardPage.setEditId
     StudentDashboard.fetchAnnouncements StudentDashboard.mount
     StudentDashboard.setAnnouncements StudentDashboard.setLoading].

(** The same, through the halves of the loads and the effects on mount. *)
Ltac run_page :=
  repeat
    (progress
       (run_handler;
        cbv beta iota zeta delta
          [AdminCoursesPage.fetchLecturers_sent
           AdminCoursesPage.fetchLecturers_settled
           AdminCoursesPage.fetchDepartments_sent
           AdminCoursesPage.fetchDepartments_settled
           AdminCoursesPage.mount_sent AdminCoursesPage.settled
           AdminDashboardPage.on_mount
           AdminDashboardPage.fetchStats_sent
           AdminDashboardPage.fetchStats_settled
           AdminDashboardPage.fetchAnnouncements_sent
           AdminDashboardPage.fetchAnnouncements_settled])).

(** Case analysis on every answer of the environment a handler is
    waiting for: a boolean test, the outcome of a request, an optional
    value. *)
Ltac case_answers :=
  repeat
    match goal with
    | |- context [match ?x with _ => _ end] =>
        lazymatch type of x with
        | bool => destruct x eqn:?
        | AxiosResult _ => destruct x as [?|] eqn:?
        | FetchResult _ => destruct x as [|? [?|]] eqn:?
        | option _ => destruct x as [?|] eqn:?
        end
    end.

(** Membership in a log or in a list of requests that is known in full. *)
Ltac member H :=
  cbn in H; repeat (destruct H as [H|H]; [try subst; try discriminate H|]);
  try (now elim H).

(* ================================================================== *)
(** ** Vocabulary of the statements *)
(* ================================================================== *)

Module CourseRequests.
Import AdminCoursesPage.

(** The requests the handlers of the course page build. *)
Definition list_request : Request :=
  mkRequest GET courses_url [] NoBody.

Definition create_request (st : State) : Request :=
  mkRequest POST courses_url [] (CourseJson (courseData_of st)).

Definition update_request (st : State) : Request :=
  mkRequest PUT (course_url (editId st)) [] (CourseJson (courseData_of st)).

Definition delete_request (id : string) : Request :=
  mkRequest DELETE (course_url (Some id)) [] NoBody.

(** The request [handleSubmit] sends for a draft that passes its guard. *)
Definition submit_request (st : State) : Request :=
  if truthy_or_null (editId st) then update_request st else create_request st.

Definition submit_toast (st : State) : string :=
  if truthy_or_null (editId st) then "Course updated." else "Course created.".

(** The draft after [resetForm], the modal closed. *)
Definition closed (st : State) : State :=
  mkState (courses st) (lecturers st) (departments st) false (loading st)
    "" "" 0%float "" "" "" "" None.

End CourseRequests.

Module AnnouncementRequests.
Import AdminDashboardPage.

(** The requests the handlers of the dashboard build. *)
Definition list_request : Request :=
  mkRequest GET announcements_url [] NoBody.

Definition submit_request (env : Env) (st : State) : Request :=
  mkRequest
    (if truthy_or_null (editId st) then PUT else POST)
    (if truthy_or_null (editId st)
     then announcement_url (editId st) else announcements_url)
    [("Content-Type", "application/json");
     ("Authorization", ("Bearer " ++ interpolate (localStorage env "adminToken"))%string)]
    (AnnouncementJson (title st) (message st)).

Definition delete_request (id : string) : Request :=
  mkRequest DELETE (announcement_url (Some id)) [] NoBody.

Definition submit_alert (st : State) : string :=
  if truthy_or_null (editId st)
  then "Announcement updated" else "Announcement created".

(** The draft after a successful submit. *)
Definition cleared (st : State) : State :=
  mkState (stats st) (announcements st) "" "" false None.

End AnnouncementRequests.

(** A session: the user's actions, one after the other, each handled from
    the state the previous one left. *)
Fixpoint perform {S A : Type} (handle : A -> Task S unit) (actions : list A)
  : Task S unit :=
  match actions with
  | [] => ret tt
  | a :: actions => handle a ;; perform handle actions
  end.

(** The actions that only edit the draft of the course form. *)
Definition course_typing (a : AdminCoursesPage.Action) : bool :=
  match a with
  | AdminCoursesPage.ChangeCourseCode _ | AdminCoursesPage.ChangeCourseTitle _
  | AdminCoursesPage.ChangeCreditUnits _ | AdminCoursesPage.ChangeLecturer _
  | AdminCoursesPage.ChangeLevel _ | AdminCoursesPage.ChangeSemester _
  | AdminCoursesPage.ChangeDepartment _ => true
  | _ => false
  end.

(** The actions of the dashboard that neither select a record nor call
    the backend: typing, opening and dismissing the dialog. *)
Definition announcement_typing (a : AdminDashboardPage.Action) : bool :=
  match a with
  | AdminDashboardPage.OpenDialog | AdminDashboardPage.DismissDialog
  | AdminDashboardPage.ChangeTitle _ | AdminDashboardPage.ChangeMessage _ => true
  | _ => false
  end.

(* ================================================================== *)
(** ** Sample inputs *)
(* ================================================================== *)

Module Samples.

(** A backend that answers every request the same way. *)
Definition answering
    (loads : bool)
    (course : AxiosResult unit)
    (announcement : FetchResult Reply.t) : Backend :=
  mkBackend
    (fun _ => if loads then AxiosResolved [] else AxiosRejected)
    (fun _ => if loads then AxiosResolved [] else AxiosRejected)
    (fun _ => if loads then AxiosResolved [] else AxiosRejected)
    (fun _ => course)
    (fun _ => FetchRejected)
    (fun _ => if loads then FetchResponse true (Some []) else FetchRejected)
    (fun _ => announcement).

(** Everything succeeds. *)
Definition backend_up : Backend :=
  answering true (AxiosResolved tt) (FetchResponse true (Some (Reply.mk None))).

(** The network is down. *)
Definition backend_down : Backend :=
  answering false AxiosRejected FetchRejected.

(** Announcement mutations are answered 401 with an error object. *)
Definition backend_refusing : Backend :=
  answering true AxiosRejected
    (FetchResponse false (Some (Reply.mk (Some "Unauthorized")))).

Definition storage (key : string) : option string :=
  if String.eqb key "adminToken" then Some "secret" else None.

(** The user confirms every prompt, or declines every prompt. *)
Definition accepting (b : Backend) : Env := mkEnv b (fun _ => true) storage.
Definition declining (b : Backend) : Env := mkEnv b (fun _ => false) storage.

Definition populated_course : Course.t :=
  Course.mk "c1" "FOR101" "Silviculture" 3%float
    (Obj (LecturerPopulated.mk "l1" (Some "A. Bello") None None))
    (Str "NDI")
    "First Semester"
    (Obj (DepartmentPopulated.mk "d1" "Forestry")).

(** A complete draft in create mode. *)
Definition new_course_draft : AdminCoursesPage.State :=
  AdminCoursesPage.mkState [populated_course] [] [] true false
    "FOR102" "Dendrology" 2%float "l1" "NDI" "First Semester" "d1" None.

(** The reset draft with a code and a title typed in. *)
Definition code_and_title_only : AdminCoursesPage.State :=
  AdminCoursesPage.mkState [populated_course] [] [] true false
    "FOR102" "Dendrology" 0%float "" "" "" "" None.

(** A complete draft whose editing identifier is the empty string. *)
Definition empty_id_draft : AdminCoursesPage.State :=
  AdminCoursesPage.mkState [populated_course] [] [] true false
    "FOR102" "Dendrology" 2%float "l1" "NDI" "First Semester" "d1" (Some "").

(** A complete draft in edit mode. *)
Definition edit_course_draft : AdminCoursesPage.State :=
  AdminCoursesPage.mkState [populated_course] [] [] true false
    "FOR101" "Silviculture" 3%float "l1" "NDI" "First Semester" "d1" (Some "c1").

(** A draft with no course code. *)
Definition no_code_draft : AdminCoursesPage.State :=
  AdminCoursesPage.mkState [populated_course] [] [] true false
    "" "Dendrology" 2%float "l1" "NDI" "First Semester" "d1" None.

Definition notice : Announcement.t :=
  Announcement.mk "a1" "Exams" "Exams start on Monday." "2025-06-01T08:00:00Z".

(** The dashboard showing one announcement, its form empty. *)
Definition dashboard : AdminDashboardPage.State :=
  AdminDashboardPage.mkState (Stats.mk 0%float 0%float 0%float 0%float)
    [notice] "" "" false None.

(** The dashboard with a new announcement typed in. *)
Definition new_notice_draft : AdminDashboardPage.State :=
  AdminDashboardPage.mkState (Stats.mk 0%float 0%float 0%float 0%float)
    [notice] "Holiday" "No lectures on Friday." false None.

(** The dashboard editing its announcement. *)
Definition edit_notice_draft : AdminDashboardPage.State :=
  AdminDashboardPage.mkState (Stats.mk 0%float 0%float 0%float 0%float)
    [notice] "Exams" "Exams start on Tuesday." false (Some "a1").

(** The dashboard with a message and no title. *)
Definition no_title_draft : AdminDashboardPage.State :=
  AdminDashboardPage.mkState (Stats.mk 0%float 0%float 0%float 0%float)
    [notice] "" "No lectures on Friday." false None.

End Samples.

(* ================================================================== *)
(** * Properties *)
(* ================================================================== *)

(** ** Truthiness *)

Lemma truthy_false (s : string) : truthy s = false <-> s = "".
Proof.
  destruct s as [|c s]; cbn; split; intro H; try reflexivity; discriminate H.
Qed.

Lemma truthy_true (s : string) : truthy s = true <-> s <> "".
Proof.
  destruct s as [|c s]; cbn; split; intro H;
    try reflexivity; try discriminate H; try (intro E; discriminate E).
  now elim H.
Qed.

Lemma truthy_or_null_false (v : option string) :
  truthy_or_null v = false <-> v = None \/ v = Some "".
Proof.
  destruct v as [s|]; cbn.
  - rewrite truthy_false. split.
    + intros ->. now right.
    + intros [H|H]; [discriminate H | now injection H].
  - split; [now left | reflexivity].
Qed.

Lemma truthy_or_null_true (v : option string) :
  truthy_or_null v = true <-> exists id, v = Some id /\ id <> "".
Proof.
  destruct v as [s|]; cbn.
  - rewrite truthy_true. split.
    + intro H. now exists s.
    + intros (id & E & H). now injection E as ->.
  - split; [discriminate | intros (id & E & _); discriminate E].
Qed.

(** ** The course page, handler by handler *)

Module CourseFacts.
Import AdminCoursesPage CourseRequests.

Lemma invalid_spec (st : State) :
  invalid st = true <->
  courseCode st = "" \/ courseTitle st = "" \/ isNaN (creditUnits st) = true.
Proof.
  unfold invalid.
  rewrite !orb_true_iff, !negb_true_iff, !truthy_false. tauto.
Qed.

Lemma valid_spec (st : State) :
  invalid st = false <->
  courseCode st <> "" /\ courseTitle st <> "" /\ isNaN (creditUnits st) = false.
Proof.
  unfold invalid.
  rewrite !orb_false_iff, !negb_false_iff, !truthy_true. tauto.
Qed.

Lemma fetchCourses_resolved env st log data :
  courses_endpoint (backend env) list_request = AxiosResolved data ->
  fetchCourses env st log =
    (Returned tt, with_loading false (with_courses data (with_loading true st)),
     log ++ [Sent list_request]).
Proof.
  intro H. unfold list_request in H. run_handler. now rewrite H.
Qed.

Lemma fetchCourses_rejected env st log :
  courses_endpoint (backend env) list_request = AxiosRejected ->
  fetchCourses env st log =
    (Returned tt, with_loading false (with_loading true st),
     (log ++ [Sent list_request]) ++ [ToastError "Failed to fetch courses."]).
Proof.
  intro H. unfold list_request in H. run_handler. now rewrite H.
Qed.

(** [fetchCourses] is its sending half followed by its settling half. *)
Lemma fetchCourses_halves env st log :
  fetchCourses env st log =
  bind fetchCourses_sent (fun _ => fetchCourses_settled env) st log.
Proof.
  run_handler. now destruct (courses_endpoint _ _).
Qed.

(** An un-awaited [fetchCourses()] followed by [closeModal()]: running the
    fetch to completion first gives what the browser gives, where the
    response arrives once [closeModal] is done. *)
Lemma unawaited_fetchCourses_commutes env st log :
  bind (fetchCourses env) (fun _ => closeModal) st log =
  bind fetchCourses_sent
    (fun _ => bind closeModal (fun _ => fetchCourses_settled env)) st log.
Proof.
  run_handler. now destruct (courses_endpoint _ _).
Qed.

Lemma course_submit_invalid env st :
  invalid st = true ->
  run (handleSubmit env) st =
    (Returned tt, st, [ToastError "Please fill in all required fields."]).
Proof.
  intro H. run_handler. now rewrite H.
Qed.

Lemma course_submit_rejected env st :
  invalid st = false ->
  course_mutation (backend env) (submit_request st) = AxiosRejected ->
  run (handleSubmit env) st =
    (Returned tt, st,
     [Sent (submit_request st); ToastError "Failed to save course."]).
Proof.
  unfold submit_request, update_request, create_request.
  intros H R. run_handler. rewrite H.
  destruct (truthy_or_null (editId st)); now rewrite R.
Qed.

Lemma course_submit_resolved env st u :
  invalid st = false ->
  course_mutation (backend env) (submit_request st) = AxiosResolved u ->
  run (handleSubmit env) st =
    match courses_endpoint (backend env) list_request with
    | AxiosResolved data =>
        (Returned tt, closed (with_loading false (with_courses data st)),
         [Sent (submit_request st); ToastSuccess (submit_toast st);
          Sent list_request])
    | AxiosRejected =>
        (Returned tt, closed (with_loading false st),
         [Sent (submit_request st); ToastSuccess (submit_toast st);
          Sent list_request; ToastError "Failed to fetch courses."])
    end.
Proof.
  unfold submit_request, submit_toast, update_request, create_request, list_request.
  intros H R. run_handler. rewrite H.
  destruct (truthy_or_null (editId st)); rewrite R;
    now destruct (courses_endpoint _ _).
Qed.

Lemma course_delete_declined env id st :
  confirm_answer env "Are you sure you want to delete this course?" = false ->
  run (handleDelete env id) st =
    (Returned tt, st, [Confirm "Are you sure you want to delete this course?"]).
Proof.
  intro H. run_handler. now rewrite H.
Qed.

Lemma course_delete_rejected env id st :
  confirm_answer env "Are you sure you want to delete this course?" = true ->
  course_mutation (backend env) (delete_request id) = AxiosRejected ->
  run (handleDelete env id) st =
    (Returned tt, st,
     [Confirm "Are you sure you want to delete this course?";
      Sent (delete_request id); ToastError "Failed to delete course."]).
Proof.
  unfold delete_request. intros H R. run_handler. now rewrite H, R.
Qed.

Lemma course_delete_resolved env id st u :
  confirm_answer env "Are you sure you want to delete this course?" = true ->
  course_mutation (backend env) (delete_request id) = AxiosResolved u ->
  run (handleDelete env id) st =
    match courses_endpoint (backend env) list_request with
    | AxiosResolved data =>
        (Returned tt, with_loading false (with_courses data (with_loading true st)),
         [Confirm "Are you sure you want to delete this course?";
          Sent (delete_request id); ToastSuccess "Course deleted.";
          Sent list_request])
    | AxiosRejected =>
        (Returned tt, with_loading false (with_loading true st),
         [Confirm "Are you sure you want to delete this course?";
          Sent (delete_request id); ToastSuccess "Course deleted.";
          Sent list_request; ToastError "Failed to fetch courses."])
    end.
Proof.
  unfold delete_request, list_request. intros H R. run_handler. rewrite H, R.
  now destruct (courses_endpoint _ _).
Qed.

(** A draft that passes the guard is sent, whatever happens next: the
    request is the first effect and the only mutation. *)
Lemma course_submit_valid_sends env st :
  invalid st = false ->
  exists rest,
    effects_of (handleSubmit env) st = Sent (submit_request st) :: rest /\
    mutations (Sent (submit_request st) :: rest) = [submit_request st].
Proof.
  intros V. unfold effects_of.
  assert (I : is_mutation (submit_request st) = true)
    by (unfold submit_request; now destruct (truthy_or_null _)).
  destruct (course_mutation (backend env) (submit_request st)) as [u|] eqn:M.
  - rewrite (course_submit_resolved env _ u V M).
    destruct (courses_endpoint _ _); eexists; (split; [reflexivity|]);
      cbn [mutations requests filter]; now rewrite I.
  - rewrite (course_submit_rejected env _ V M).
    eexists; (split; [reflexivity|]).
    cbn [mutations requests filter]; now rewrite I.
Qed.

End CourseFacts.

(** ** The dashboard, handler by handler *)

Module AnnouncementFacts.
Import AdminDashboardPage AnnouncementRequests.

Lemma announcement_submit_invalid env st :
  title st = "" \/ message st = "" ->
  run (handleSubmit env) st = (Returned tt, st, [Alert "Fill in all fields."]).
Proof.
  intro H. run_handler.
  destruct H as [H|H]; rewrite H; cbn; [|rewrite orb_true_r]; reflexivity.
Qed.

(** What [handleSubmit] does with a draft that passes its guard, by the
    answer of the backend. *)
Lemma announcement_submit_valid env st :
  title st <> "" -> message st <> "" ->
  run (handleSubmit env) st =
    match announcement_mutation (backend env) (submit_request env st) with
    | FetchResponse true (Some _) =>
        (Returned tt, cleared st,
         [Sent (submit_request env st); Alert (submit_alert st); Reload])
    | FetchResponse false (Some data) =>
        (Returned tt, with_submitting false st,
         [Sent (submit_request env st);
          Alert (or_else (Reply.error data) "Failed to submit")])
    | FetchResponse _ None | FetchRejected =>
        (Returned tt, with_submitting false st,
         [Sent (submit_request env st); Alert "Server error"])
    end.
Proof.
  intros Ht Hm. apply truthy_true in Ht, Hm.
  unfold submit_request, submit_alert. run_handler. rewrite Ht, Hm. cbn [negb orb].
  destruct (announcement_mutation _ _) as [|[|] [data|]]; reflexivity.
Qed.

Lemma announcement_submit_valid_sends env st :
  title st <> "" -> message st <> "" ->
  exists rest,
    effects_of (handleSubmit env) st = Sent (submit_request env st) :: rest.
Proof.
  intros Ht Hm. unfold effects_of.
  rewrite (announcement_submit_valid env st Ht Hm).
  destruct (announcement_mutation _ _) as [|[|] [d|]]; eexists; reflexivity.
Qed.

Lemma announcement_delete_declined env id st :
  confirm_answer env "Are you sure?" = false ->
  run (handleDelete env id) st = (Returned tt, st, [Confirm "Are you sure?"]).
Proof.
  intro H. run_handler. now rewrite H.
Qed.

Lemma announcement_delete_confirmed env id st :
  confirm_answer env "Are you sure?" = true ->
  run (handleDelete env id) st =
    match announcement_mutation (backend env) (delete_request id) with
    | FetchResponse _ _ =>
        (Returned tt, st,
         [Confirm "Are you sure?"; Sent (delete_request id); Alert "Deleted"; Reload])
    | FetchRejected =>
        (Returned tt, st,
         [Confirm "Are you sure?"; Sent (delete_request id); Alert "Delete failed"])
    end.
Proof.
  intro H. unfold delete_request. run_handler. rewrite H.
  now destruct (announcement_mutation _ _).
Qed.

Lemma announcement_fetch_run env st :
  run (fetchAnnouncements env) st =
    match announcements_endpoint (backend env) list_request with
    | FetchResponse _ (Some data) =>
        (Returned tt, with_announcements data st, [Sent list_request])
    | FetchResponse _ None | FetchRejected =>
        (Returned tt, st,
         [Sent list_request; ConsoleError "Error fetching announcements"])
    end.
Proof.
  unfold list_request. run_handler.
  now destruct (announcements_endpoint _ _) as [|ok [data|]].
Qed.

End AnnouncementFacts.

Module StudentFacts.
Import StudentDashboard.

Lemma student_fetch_run env st :
  run (fetchAnnouncements env) st =
    match announcements_endpoint (backend env)
            (mkRequest GET announcements_url [] NoBody) with
    | FetchResponse _ (Some data) =>
        (Returned tt, mkState data false,
         [Sent (mkRequest GET announcements_url [] NoBody)])
    | FetchResponse _ None | FetchRejected =>
        (Returned tt, mkState (announcements st) false,
         [Sent (mkRequest GET announcements_url [] NoBody);
          ConsoleError "Error fetching announcements:"])
    end.
Proof.
  run_handler. now destruct (announcements_endpoint _ _) as [|ok [data|]].
Qed.

End StudentFacts.

(* ================================================================== *)
(** * The claims *)
(* ================================================================== *)

Section CoursePage.
Import AdminCoursesPage CourseRequests CourseFacts.

(** C1.  For every course record passed to [openModal], each foreign-key
    field (lecturer, level, department) reaches the draft as its raw
    identifier: the [_id] of the object when the field arrived populated,
    the string itself when it arrived as a string.  Whatever
    [handleSubmit] then sends as a create or update request carries
    exactly these identifiers, next to the record's own scalar fields. *)
Theorem openModal_normalizes_foreign_keys :
  forall (env : Env) (course : Course.t) (st : State),
    let draft := state_after (openModal (Some course)) st in
    (forall o, Course.lecturer course = Obj o ->
               lecturer draft = LecturerPopulated._id o) /\
    (forall s, Course.lecturer course = Str s -> lecturer draft = s) /\
    (forall o, Course.level course = Obj o ->
               level draft = LevelPopulated._id o) /\
    (forall s, Course.level course = Str s -> level draft = s) /\
    (forall o, Course.department course = Obj o ->
               department draft = DepartmentPopulated._id o) /\
    (forall s, Course.department course = Str s -> department draft = s) /\
    (forall r, In r (mutations (effects_of (handleSubmit env) draft)) ->
               body r =
                 CourseJson
                   (CourseData.mk (Course.courseCode course)
                      (Course.courseTitle course) (Course.creditUnits course)
                      (lecturer draft) (level draft) (Course.semester course)
                      (department draft))).
Proof.
  intros env course st draft.
  repeat split.
  - intros o E. subst draft. run_handler. now rewrite E.
  - intros s E. subst draft. run_handler. now rewrite E.
  - intros o E. subst draft. run_handler. now rewrite E.
  - intros s E. subst draft. run_handler. now rewrite E.
  - intros o E. subst draft. run_handler. now rewrite E.
  - intros s E. subst draft. run_handler. now rewrite E.
  - intros r. unfold effects_of.
    destruct (invalid draft) eqn:V.
    + rewrite (course_submit_invalid env _ V). intros [].
    + destruct (course_mutation (backend env) (submit_request draft)) as [u|] eqn:M.
      * rewrite (course_submit_resolved env _ u V M).
        assert (B : body (submit_request draft) = CourseJson (courseData_of draft))
          by (unfold submit_request; now destruct (truthy_or_null _)).
        assert (I : is_mutation (submit_request draft) = true)
          by (unfold submit_request; now destruct (truthy_or_null _)).
        destruct (courses_endpoint _ _); cbn [snd mutations requests filter];
          rewrite I; cbn [is_mutation list_request method filter];
          (intros [<-|[]]; rewrite B; reflexivity).
      * rewrite (course_submit_rejected env _ V M).
        assert (B : body (submit_request draft) = CourseJson (courseData_of draft))
          by (unfold submit_request; now destruct (truthy_or_null _)).
        assert (I : is_mutation (submit_request draft) = true)
          by (unfold submit_request; now destruct (truthy_or_null _)).
        cbn [snd mutations requests filter]. rewrite I.
        intros [<-|[]]. rewrite B. reflexivity.
Qed.

Lemma openModal_normalizes_foreign_keys_witness :
  let draft := state_after (openModal (Some Samples.populated_course))
                 AdminCoursesPage.initial in
  lecturer draft = "l1" /\ level draft = "NDI" /\ department draft = "d1" /\
  Forall
    (fun r => body r =
              CourseJson
                (CourseData.mk "FOR101" "Silviculture" 3%float "l1" "NDI"
                   "First Semester" "d1"))
    (mutations
       (effects_of (handleSubmit (Samples.accepting Samples.backend_up)) draft)).
Proof.
  destruct (openModal_normalizes_foreign_keys
              (Samples.accepting Samples.backend_up)
              Samples.populated_course AdminCoursesPage.initial)
    as (L & _ & _ & V & D & _ & B).
  split; [exact (L _ eq_refl)|].
  split; [exact (V _ eq_refl)|].
  split; [exact (D _ eq_refl)|].
  apply Forall_forall. exact B.
Defined.

(** C6.  A submission of the course form with every required field filled
    in, a credit value that is a number and no editing identifier sends
    exactly one mutation, a POST of the draft to the course collection; when
    the backend accepts it, every field of the form is back to its initial
    value (strings empty, [creditUnits] zero, [editId] null) and the
    handler has sent, besides the create request, exactly one GET of the
    course collection. *)
Theorem create_submit_sends_once_and_clears :
  forall (env : Env) (st : State),
    courseCode st <> "" -> courseTitle st <> "" ->
    lecturer st <> "" -> level st <> "" ->
    semester st <> "" -> department st <> "" ->
    isNaN (creditUnits st) = false ->
    editId st = None ->
    let create :=
      mkRequest POST courses_url []
        (CourseJson
           (CourseData.mk (courseCode st) (courseTitle st) (creditUnits st)
              (lecturer st) (level st) (semester st) (department st))) in
    let st' := state_after (handleSubmit env) st in
    mutations (effects_of (handleSubmit env) st) = [create] /\
    (course_mutation (backend env) create = AxiosResolved tt ->
     requests (effects_of (handleSubmit env) st)
       = [create; mkRequest GET courses_url [] NoBody] /\
     courseCode st' = "" /\ courseTitle st' = "" /\
     creditUnits st' = 0%float /\
     lecturer st' = "" /\ level st' = "" /\
     semester st' = "" /\ department st' = "" /\
     editId st' = None).
Proof.
  intros env st Hc Ht _ _ _ _ Hn He create st'.
  assert (V : invalid st = false) by (apply valid_spec; auto).
  assert (S : submit_request st = create)
    by (unfold submit_request; rewrite He; reflexivity).
  subst st'. unfold effects_of, state_after.
  destruct (course_mutation (backend env) (submit_request st)) as [[]|] eqn:M.
  - rewrite (course_submit_resolved env _ tt V M), S.
    split.
    + now destruct (courses_endpoint _ _).
    + intros _. now destruct (courses_endpoint _ _).
  - rewrite (course_submit_rejected env _ V M), S.
    split; [reflexivity|].
    rewrite S in M. rewrite M. discriminate.
Qed.

Lemma create_submit_sends_once_and_clears_witness :
  let env := Samples.accepting Samples.backend_up in
  let st := Samples.new_course_draft in
  let create :=
    mkRequest POST courses_url []
      (CourseJson
         (CourseData.mk "FOR102" "Dendrology" 2%float "l1" "NDI"
            "First Semester" "d1")) in
  mutations (effects_of (handleSubmit env) st) = [create] /\
  requests (effects_of (handleSubmit env) st)
    = [create; mkRequest GET courses_url [] NoBody] /\
  editId (state_after (handleSubmit env) st) = None.
Proof.
  intros env st create.
  destruct (create_submit_sends_once_and_clears env st) as [M K];
    try (intro E; discriminate E); try reflexivity.
  split; [exact M|].
  destruct (K eq_refl) as (R & _ & _ & _ & _ & _ & _ & _ & E).
  split; [exact R | exact E].
Defined.

(** C10.  The guard of the course submit handler fires exactly when the
    course code or the course title is the empty string or the credit
    value is NaN: in exactly these cases the handler sends no request and
    shows the validation toast.  In particular a draft with a code and a
    title, zero credit units (the reset value) and empty lecturer, level,
    semester and department passes the guard, and the handler sends one
    create or update request that carries these empty values. *)
Theorem course_guard_checks_code_title_and_nan :
  (forall (env : Env) (st : State),
      effects_of (handleSubmit env) st
        = [ToastError "Please fill in all required fields."]
      <-> courseCode st = "" \/ courseTitle st = ""
          \/ isNaN (creditUnits st) = true) /\
  (forall (env : Env) (st : State),
      requests (effects_of (handleSubmit env) st) = []
      <-> courseCode st = "" \/ courseTitle st = ""
          \/ isNaN (creditUnits st) = true) /\
  (forall (env : Env) (st : State),
      courseCode st <> "" -> courseTitle st <> "" ->
      creditUnits st = 0%float ->
      lecturer st = "" -> level st = "" ->
      semester st = "" -> department st = "" ->
      exists r,
        mutations (effects_of (handleSubmit env) st) = [r] /\
        body r =
          CourseJson
            (CourseData.mk (courseCode st) (courseTitle st) 0%float
               "" "" "" "")).
Proof.
  pose proof course_submit_valid_sends as G.
  split; [|split].
  - intros env st. rewrite <- invalid_spec. split.
    + intro E. destruct (invalid st) eqn:V; [reflexivity|].
      destruct (G env st V) as (rest & R & _). rewrite R in E. discriminate E.
    + intro V. unfold effects_of. now rewrite (course_submit_invalid env _ V).
  - intros env st. rewrite <- invalid_spec. split.
    + intro E. destruct (invalid st) eqn:V; [reflexivity|].
      destruct (G env st V) as (rest & R & _). rewrite R in E. discriminate E.
    + intro V. unfold effects_of. now rewrite (course_submit_invalid env _ V).
  - intros env st Hc Ht Hu Hl Hv Hs Hd.
    assert (V : invalid st = false).
    { apply valid_spec. rewrite Hu. repeat split; auto. }
    destruct (G env st V) as (rest & R & Mu).
    exists (submit_request st). rewrite R. split; [exact Mu|].
    unfold submit_request, update_request, create_request, courseData_of.
    rewrite Hu, Hl, Hv, Hs, Hd. now destruct (truthy_or_null _).
Qed.

Lemma course_guard_checks_code_title_and_nan_witness :
  let env := Samples.accepting Samples.backend_up in
  effects_of (handleSubmit env) Samples.no_code_draft
    = [ToastError "Please fill in all required fields."] /\
  requests (effects_of (handleSubmit env) Samples.no_code_draft) = [] /\
  exists r,
    mutations (effects_of (handleSubmit env) Samples.code_and_title_only) = [r] /\
    body r =
      CourseJson (CourseData.mk "FOR102" "Dendrology" 0%float "" "" "" "").
Proof.
  intro env.
  destruct course_guard_checks_code_title_and_nan as (T & R & P).
  split; [apply (T env Samples.no_code_draft); now left|].
  split; [apply (R env Samples.no_code_draft); now left|].
  apply (P env Samples.code_and_title_only);
    try reflexivity; intro E; discriminate E.
Defined.

End CoursePage.

(** C7.  When the user declines the confirmation prompt, [handleDelete]
    sends no request and leaves the state of the page as it was, on the
    course page and on the dashboard alike; the only effect is the prompt
    itself.  Conversely the prompt is the first effect of every delete,
    and a request appears in the log only when the prompt was answered
    yes. *)
Theorem declined_delete_sends_nothing :
  (forall (env : Env) (id : string) (st : AdminCoursesPage.State),
      confirm_answer env "Are you sure you want to delete this course?" = false ->
      requests (effects_of (AdminCoursesPage.handleDelete env id) st) = [] /\
      state_after (AdminCoursesPage.handleDelete env id) st = st /\
      effects_of (AdminCoursesPage.handleDelete env id) st
        = [Confirm "Are you sure you want to delete this course?"]) /\
  (forall (env : Env) (id : string) (st : AdminDashboardPage.State),
      confirm_answer env "Are you sure?" = false ->
      requests (effects_of (AdminDashboardPage.handleDelete env id) st) = [] /\
      state_after (AdminDashboardPage.handleDelete env id) st = st /\
      effects_of (AdminDashboardPage.handleDelete env id) st
        = [Confirm "Are you sure?"]) /\
  (forall (env : Env) (id : string) (st : AdminCoursesPage.State),
      exists rest,
        effects_of (AdminCoursesPage.handleDelete env id) st
          = Confirm "Are you sure you want to delete this course?" :: rest /\
        (requests rest <> [] ->
         confirm_answer env "Are you sure you want to delete this course?" = true)) /\
  (forall (env : Env) (id : string) (st : AdminDashboardPage.State),
      exists rest,
        effects_of (AdminDashboardPage.handleDelete env id) st
          = Confirm "Are you sure?" :: rest /\
        (requests rest <> [] -> confirm_answer env "Are you sure?" = true)).
Proof.
  split; [|split; [|split]].
  - intros env id st H. unfold effects_of, state_after.
    now rewrite (CourseFacts.course_delete_declined env id st H).
  - intros env id st H. unfold effects_of, state_after.
    now rewrite (AnnouncementFacts.announcement_delete_declined env id st H).
  - intros env id st. unfold effects_of.
    destruct (confirm_answer env "Are you sure you want to delete this course?") eqn:H.
    + destruct (course_mutation (backend env) (CourseRequests.delete_request id))
        as [u|] eqn:M.
      * rewrite (CourseFacts.course_delete_resolved env id st u H M).
        destruct (courses_endpoint _ _); eexists; split; reflexivity.
      * rewrite (CourseFacts.course_delete_rejected env id st H M).
        eexists; split; reflexivity.
    + rewrite (CourseFacts.course_delete_declined env id st H).
      exists []. split; [reflexivity|]. intro N. now elim N.
  - intros env id st. unfold effects_of.
    destruct (confirm_answer env "Are you sure?") eqn:H.
    + rewrite (AnnouncementFacts.announcement_delete_confirmed env id st H).
      destruct (announcement_mutation _ _); eexists; split; reflexivity.
    + rewrite (AnnouncementFacts.announcement_delete_declined env id st H).
      exists []. split; [reflexivity|]. intro N. now elim N.
Qed.

Lemma declined_delete_sends_nothing_witness :
  requests
    (effects_of
       (AdminCoursesPage.handleDelete (Samples.declining Samples.backend_up) "c1")
       Samples.new_course_draft) = [] /\
  requests
    (effects_of
       (AdminDashboardPage.handleDelete (Samples.declining Samples.backend_up) "a1")
       Samples.dashboard) = [] /\
  confirm_answer (Samples.accepting Samples.backend_up) "Are you sure?" = true.
Proof.
  destruct declined_delete_sends_nothing as (C & A & _ & Q).
  split; [apply (C (Samples.declining Samples.backend_up)); reflexivity|].
  split; [apply (A (Samples.declining Samples.backend_up)); reflexivity|].
  destruct (Q (Samples.accepting Samples.backend_up) "a1" Samples.dashboard)
    as (rest & E & K).
  apply K. injection E as <-. discriminate.
Defined.

(** C3, as the code has it.  The course submit handler sends no request,
    shows its validation toast and leaves the page as it was whenever the
    course code or the course title is empty or the credit value is NaN,
    and in no other case: the handler does not look at lecturer, level,
    semester or department.  The announcement submit handler sends no
    request, shows its validation alert and leaves the page as it was
    whenever the title or the message is empty, and in no other case. *)
Theorem guards_block_submission :
  (forall (env : Env) (st : AdminCoursesPage.State),
      AdminCoursesPage.courseCode st = ""
      \/ AdminCoursesPage.courseTitle st = ""
      \/ isNaN (AdminCoursesPage.creditUnits st) = true ->
      requests (effects_of (AdminCoursesPage.handleSubmit env) st) = [] /\
      notifications (effects_of (AdminCoursesPage.handleSubmit env) st)
        = ["Please fill in all required fields."] /\
      state_after (AdminCoursesPage.handleSubmit env) st = st) /\
  (forall (env : Env) (st : AdminCoursesPage.State),
      requests (effects_of (AdminCoursesPage.handleSubmit env) st) = [] ->
      AdminCoursesPage.courseCode st = ""
      \/ AdminCoursesPage.courseTitle st = ""
      \/ isNaN (AdminCoursesPage.creditUnits st) = true) /\
  (forall (env : Env) (st : AdminDashboardPage.State),
      AdminDashboardPage.title st = "" \/ AdminDashboardPage.message st = "" ->
      requests (effects_of (AdminDashboardPage.handleSubmit env) st) = [] /\
      notifications (effects_of (AdminDashboardPage.handleSubmit env) st)
        = ["Fill in all fields."] /\
      state_after (AdminDashboardPage.handleSubmit env) st = st) /\
  (forall (env : Env) (st : AdminDashboardPage.State),
      requests (effects_of (AdminDashboardPage.handleSubmit env) st) = [] ->
      AdminDashboardPage.title st = "" \/ AdminDashboardPage.message st = "").
Proof.
  split; [|split; [|split]].
  - intros env st H. apply CourseFacts.invalid_spec in H.
    unfold effects_of, state_after.
    now rewrite (CourseFacts.course_submit_invalid env st H).
  - intros env st E. apply CourseFacts.invalid_spec.
    destruct (AdminCoursesPage.invalid st) eqn:V; [reflexivity|].
    destruct (CourseFacts.course_submit_valid_sends env st V) as (rest & R & _).
    rewrite R in E. discriminate E.
  - intros env st H. unfold effects_of, state_after.
    now rewrite (AnnouncementFacts.announcement_submit_invalid env st H).
  - intros env st E.
    destruct (AdminDashboardPage.title st) as [|c t] eqn:T; [now left|].
    destruct (AdminDashboardPage.message st) as [|c' m] eqn:Ms; [now right|].
    destruct (AnnouncementFacts.announcement_submit_valid_sends env st)
      as (rest & R); [rewrite T; discriminate | rewrite Ms; discriminate |].
    rewrite R in E. discriminate E.
Qed.

Lemma guards_block_submission_witness :
  requests
    (effects_of (AdminCoursesPage.handleSubmit (Samples.accepting Samples.backend_up))
       Samples.no_code_draft) = [] /\
  requests
    (effects_of (AdminDashboardPage.handleSubmit (Samples.accepting Samples.backend_up))
       Samples.no_title_draft) = [].
Proof.
  destruct guards_block_submission as (C & _ & A & _).
  split.
  - apply (C (Samples.accepting Samples.backend_up) Samples.no_code_draft).
    left. reflexivity.
  - apply (A (Samples.accepting Samples.backend_up) Samples.no_title_draft).
    left. reflexivity.
Defined.

(** C3, as stated, fails: a draft whose lecturer, level, semester and
    department are empty is sent to the backend, and the toast reports a
    created course. *)
Lemma submit_with_empty_references_is_sent :
  let env := Samples.accepting Samples.backend_up in
  let st := Samples.code_and_title_only in
  (AdminCoursesPage.lecturer st = "" /\ AdminCoursesPage.level st = "" /\
   AdminCoursesPage.semester st = "" /\ AdminCoursesPage.department st = "") /\
  requests (effects_of (AdminCoursesPage.handleSubmit env) st)
    = [mkRequest POST "https://forestryapi.onrender.com/courses" []
         (CourseJson (CourseData.mk "FOR102" "Dendrology" 0%float "" "" "" ""));
       mkRequest GET "https://forestryapi.onrender.com/courses" [] NoBody] /\
  notifications (effects_of (AdminCoursesPage.handleSubmit env) st)
    = ["Course created."].
Proof.
  cbv zeta. repeat split.
Qed.

(** C5, as the code has it.  A draft that passes the guard of its page is
    sent as one PUT to the record's own URL when the editing identifier is
    a non-empty string, and as one POST to the collection when it is null
    or the empty string.  When the backend accepts the request (for the
    dashboard: answers ok with a JSON body), the course page sends one GET
    of the collection, stores what it answers, closes the modal and empties
    the form; the dashboard empties the form and reloads the page. *)
Theorem submit_updates_or_creates :
  (forall (env : Env) (st : AdminCoursesPage.State),
      AdminCoursesPage.courseCode st <> "" ->
      AdminCoursesPage.courseTitle st <> "" ->
      isNaN (AdminCoursesPage.creditUnits st) = false ->
      exists r,
        mutations (effects_of (AdminCoursesPage.handleSubmit env) st) = [r] /\
        body r = CourseJson (AdminCoursesPage.courseData_of st) /\
        (forall id, AdminCoursesPage.editId st = Some id -> id <> "" ->
                    method r = PUT /\
                    url r = ("https://forestryapi.onrender.com/courses/" ++ id)%string) /\
        (AdminCoursesPage.editId st = None \/ AdminCoursesPage.editId st = Some "" ->
         method r = POST /\ url r = "https://forestryapi.onrender.com/courses") /\
        (course_mutation (backend env) r = AxiosResolved tt ->
         let st' := state_after (AdminCoursesPage.handleSubmit env) st in
         requests (effects_of (AdminCoursesPage.handleSubmit env) st)
           = [r; CourseRequests.list_request] /\
         (forall data,
             courses_endpoint (backend env) CourseRequests.list_request
               = AxiosResolved data ->
             AdminCoursesPage.courses st' = data) /\
         AdminCoursesPage.isModalOpen st' = false /\
         AdminCoursesPage.editId st' = None /\
         AdminCoursesPage.courseData_of st'
           = CourseData.mk "" "" 0%float "" "" "" "")) /\
  (forall (env : Env) (st : AdminDashboardPage.State),
      AdminDashboardPage.title st <> "" ->
      AdminDashboardPage.message st <> "" ->
      exists r,
        requests (effects_of (AdminDashboardPage.handleSubmit env) st) = [r] /\
        body r = AnnouncementJson (AdminDashboardPage.title st)
                   (AdminDashboardPage.message st) /\
        (forall id, AdminDashboardPage.editId st = Some id -> id <> "" ->
                    method r = PUT /\
                    url r = ("https://forestryapi.onrender.com/announcements/" ++ id)%string) /\
        (AdminDashboardPage.editId st = None
         \/ AdminDashboardPage.editId st = Some "" ->
         method r = POST /\
         url r = "https://forestryapi.onrender.com/announcements") /\
        (forall data,
            announcement_mutation (backend env) r = FetchResponse true (Some data) ->
            let st' := state_after (AdminDashboardPage.handleSubmit env) st in
            effects_of (AdminDashboardPage.handleSubmit env) st
              = [Sent r; Alert (AnnouncementRequests.submit_alert st); Reload] /\
            AdminDashboardPage.title st' = "" /\
            AdminDashboardPage.message st' = "" /\
            AdminDashboardPage.editId st' = None)).
Proof.
  split.
  - intros env st Hc Ht Hn.
    assert (V : AdminCoursesPage.invalid st = false)
      by (apply CourseFacts.valid_spec; auto).
    exists (CourseRequests.submit_request st).
    assert (I : is_mutation (CourseRequests.submit_request st) = true)
      by (unfold CourseRequests.submit_request; now destruct (truthy_or_null _)).
    split; [|split; [|split; [|split]]].
    + unfold effects_of.
      destruct (course_mutation (backend env) (CourseRequests.submit_request st))
        as [u|] eqn:M.
      * rewrite (CourseFacts.course_submit_resolved env _ u V M).
        destruct (courses_endpoint _ _);
          cbn [snd mutations requests filter]; now rewrite I.
      * rewrite (CourseFacts.course_submit_rejected env _ V M).
        cbn [snd mutations requests filter]; now rewrite I.
    + unfold CourseRequests.submit_request. now destruct (truthy_or_null _).
    + intros id E N. unfold CourseRequests.submit_request.
      assert (T : truthy_or_null (AdminCoursesPage.editId st) = true)
        by (apply truthy_or_null_true; now exists id).
      rewrite T. unfold CourseRequests.update_request. cbn [method url].
      rewrite E. split; reflexivity.
    + intros E. apply truthy_or_null_false in E.
      unfold CourseRequests.submit_request. rewrite E. split; reflexivity.
    + intros M st'. subst st'. unfold effects_of, state_after.
      rewrite (CourseFacts.course_submit_resolved env _ tt V M).
      destruct (courses_endpoint _ _) as [d|]; cbn [fst snd requests];
        repeat split; intros data E; [now injection E | discriminate E].
  - intros env st Ht Hm.
    exists (AnnouncementRequests.submit_request env st).
    unfold effects_of, state_after.
    rewrite (AnnouncementFacts.announcement_submit_valid env st Ht Hm).
    split; [|split; [|split; [|split]]].
    + now destruct (announcement_mutation _ _) as [|[|] [d|]].
    + reflexivity.
    + intros id E N. unfold AnnouncementRequests.submit_request.
      assert (T : truthy_or_null (AdminDashboardPage.editId st) = true)
        by (apply truthy_or_null_true; now exists id).
      rewrite T. cbn [method url]. rewrite E. split; reflexivity.
    + intros E. apply truthy_or_null_false in E.
      unfold AnnouncementRequests.submit_request. rewrite E. split; reflexivity.
    + intros data M. rewrite M. cbn. repeat split.
Qed.

Lemma submit_updates_or_creates_witness :
  let env := Samples.accepting Samples.backend_up in
  (exists r,
      mutations (effects_of (AdminCoursesPage.handleSubmit env)
                   Samples.edit_course_draft) = [r] /\
      method r = PUT /\
      url r = "https://forestryapi.onrender.com/courses/c1") /\
  (exists r,
      requests (effects_of (AdminDashboardPage.handleSubmit env)
                  Samples.new_notice_draft) = [r] /\
      method r = POST /\
      url r = "https://forestryapi.onrender.com/announcements").
Proof.
  intro env. destruct submit_updates_or_creates as (C & A). split.
  - destruct (C env Samples.edit_course_draft) as (r & M & _ & U & _);
      try (intro E; discriminate E); try reflexivity.
    exists r. split; [exact M|].
    apply (U "c1" eq_refl). intro E; discriminate E.
  - destruct (A env Samples.new_notice_draft) as (r & M & _ & _ & P & _);
      try (intro E; discriminate E).
    exists r. split; [exact M|].
    apply P. now left.
Defined.

(** C5, as stated, fails: with the empty string as editing identifier,
    which is not null, a valid draft is sent as a create request. *)
Lemma submit_with_empty_identifier_creates :
  let env := Samples.accepting Samples.backend_up in
  let st := Samples.empty_id_draft in
  AdminCoursesPage.editId st <> None /\
  AdminCoursesPage.invalid st = false /\
  mutations (effects_of (AdminCoursesPage.handleSubmit env) st)
    = [mkRequest POST "https://forestryapi.onrender.com/courses" []
         (CourseJson
            (CourseData.mk "FOR102" "Dendrology" 2%float "l1" "NDI"
               "First Semester" "d1"))].
Proof.
  cbv zeta. split; [intro E; discriminate E|]. split; reflexivity.
Qed.

(** C8, as the code has it.  On the course page a load that succeeds
    replaces the cached courses, lecturers or departments by the response,
    and a load that fails leaves the cached sequence as it was and shows an
    error toast.  On the dashboard and on the student page a response whose
    body parses replaces the cached announcements; a fetch that is
    rejected, or whose body does not parse, leaves them as they were, and
    the failure is written to the console only: the user is shown
    nothing. *)
Theorem loads_replace_or_keep :
  (forall (env : Env) (st : AdminCoursesPage.State),
      let st' := state_after (AdminCoursesPage.fetchCourses env) st in
      let log := effects_of (AdminCoursesPage.fetchCourses env) st in
      (forall data,
          courses_endpoint (backend env) CourseRequests.list_request
            = AxiosResolved data ->
          AdminCoursesPage.courses st' = data /\ notifications log = []) /\
      (courses_endpoint (backend env) CourseRequests.list_request = AxiosRejected ->
       AdminCoursesPage.courses st' = AdminCoursesPage.courses st /\
       notifications log = ["Failed to fetch courses."])) /\
  (forall (env : Env) (st : AdminCoursesPage.State),
      let req := mkRequest GET AdminCoursesPage.lecturers_url [] NoBody in
      let st' := state_after (AdminCoursesPage.fetchLecturers env) st in
      let log := effects_of (AdminCoursesPage.fetchLecturers env) st in
      (forall data,
          lecturers_endpoint (backend env) req = AxiosResolved data ->
          AdminCoursesPage.lecturers st' = data /\ notifications log = []) /\
      (lecturers_endpoint (backend env) req = AxiosRejected ->
       st' = st /\ notifications log = ["Failed to fetch lecturers."])) /\
  (forall (env : Env) (st : AdminCoursesPage.State),
      let req := mkRequest GET AdminCoursesPage.departments_url [] NoBody in
      let st' := state_after (AdminCoursesPage.fetchDepartments env) st in
      let log := effects_of (AdminCoursesPage.fetchDepartments env) st in
      (forall data,
          departments_endpoint (backend env) req = AxiosResolved data ->
          AdminCoursesPage.departments st' = data /\ notifications log = []) /\
      (departments_endpoint (backend env) req = AxiosRejected ->
       st' = st /\ notifications log = ["Failed to fetch departments."])) /\
  (forall (env : Env) (st : AdminDashboardPage.State),
      let req := AnnouncementRequests.list_request in
      let st' := state_after (AdminDashboardPage.fetchAnnouncements env) st in
      let log := effects_of (AdminDashboardPage.fetchAnnouncements env) st in
      (forall ok data,
          announcements_endpoint (backend env) req = FetchResponse ok (Some data) ->
          AdminDashboardPage.announcements st' = data /\ log = [Sent req]) /\
      (announcements_endpoint (backend env) req = FetchRejected
       \/ (exists ok, announcements_endpoint (backend env) req = FetchResponse ok None) ->
       st' = st /\
       log = [Sent req; ConsoleError "Error fetching announcements"] /\
       notifications log = [])) /\
  (forall (env : Env) (st : StudentDashboard.State),
      let req := mkRequest GET StudentDashboard.announcements_url [] NoBody in
      let st' := state_after (StudentDashboard.fetchAnnouncements env) st in
      let log := effects_of (StudentDashboard.fetchAnnouncements env) st in
      (forall ok data,
          announcements_endpoint (backend env) req = FetchResponse ok (Some data) ->
          StudentDashboard.announcements st' = data /\ log = [Sent req]) /\
      (announcements_endpoint (backend env) req = FetchRejected
       \/ (exists ok, announcements_endpoint (backend env) req = FetchResponse ok None) ->
       StudentDashboard.announcements st' = StudentDashboard.announcements st /\
       log = [Sent req; ConsoleError "Error fetching announcements:"] /\
       notifications log = [])).
Proof.
  split; [|split; [|split; [|split]]].
  - intros env st st' log. subst st' log. unfold state_after, effects_of, run.
    split.
    + intros data E. now rewrite (CourseFacts.fetchCourses_resolved env st [] data E).
    + intros E. now rewrite (CourseFacts.fetchCourses_rejected env st [] E).
  - intros env st req st' log. subst req st' log. run_handler.
    split; [intros data E | intros E]; now rewrite E.
  - intros env st req st' log. subst req st' log. run_handler.
    split; [intros data E | intros E]; now rewrite E.
  - intros env st req st' log. subst req st' log. unfold state_after, effects_of.
    rewrite AnnouncementFacts.announcement_fetch_run.
    split.
    + intros ok data E. now rewrite E.
    + intros [E|[ok E]]; now rewrite E.
  - intros env st req st' log. subst req st' log. unfold state_after, effects_of.
    rewrite StudentFacts.student_fetch_run.
    split.
    + intros ok data E. now rewrite E.
    + intros [E|[ok E]]; now rewrite E.
Qed.

Lemma loads_replace_or_keep_witness :
  AdminCoursesPage.courses
    (state_after (AdminCoursesPage.fetchCourses (Samples.accepting Samples.backend_down))
       Samples.new_course_draft)
    = [Samples.populated_course] /\
  notifications
    (effects_of (AdminCoursesPage.fetchCourses (Samples.accepting Samples.backend_down))
       Samples.new_course_draft)
    = ["Failed to fetch courses."] /\
  AdminDashboardPage.announcements
    (state_after (AdminDashboardPage.fetchAnnouncements (Samples.accepting Samples.backend_up))
       Samples.dashboard)
    = [].
Proof.
  destruct loads_replace_or_keep as (C & _ & _ & A & _).
  destruct (C (Samples.accepting Samples.backend_down) Samples.new_course_draft)
    as (_ & F).
  destruct (F eq_refl) as (K & N).
  split; [exact K|]. split; [exact N|].
  destruct (A (Samples.accepting Samples.backend_up) Samples.dashboard) as (R & _).
  exact (proj1 (R true [] eq_refl)).
Defined.

(** C8, as stated, fails: when the network is down the dashboard's load
    of the announcements shows the user nothing; it writes to the
    console. *)
Lemma failed_announcement_load_is_silent :
  let env := Samples.accepting Samples.backend_down in
  announcements_endpoint (backend env) AnnouncementRequests.list_request
    = FetchRejected /\
  effects_of (AdminDashboardPage.fetchAnnouncements env) Samples.dashboard
    = [Sent (mkRequest GET "https://forestryapi.onrender.com/announcements" [] NoBody);
       ConsoleError "Error fetching announcements"] /\
  notifications
    (effects_of (AdminDashboardPage.fetchAnnouncements env) Samples.dashboard)
    = [].
Proof.
  cbv zeta. repeat split.
Qed.

(** C9, as the code has it.  On both pages the editing identifier starts
    null; the form shows its create heading exactly when the identifier is
    null or the empty string; the identifier takes a new non-null value
    only through the edit button, which sets it to the identifier of the
    chosen record; and a submit that the backend accepts sets it back to
    null.  On the course page Cancel sets it back to null as well.  The
    dialog of the dashboard has no handler for being dismissed: dismissing
    it leaves the whole state, the identifier included, as it was. *)
Theorem editing_identifier_lifecycle :
  (AdminCoursesPage.editId AdminCoursesPage.initial = None /\
   AdminDashboardPage.editId AdminDashboardPage.initial = None) /\
  ((forall st : AdminCoursesPage.State,
       AdminCoursesPage.modal_heading st = "Add New Course" <->
       AdminCoursesPage.editId st = None \/ AdminCoursesPage.editId st = Some "") /\
   (forall st : AdminDashboardPage.State,
       AdminDashboardPage.dialog_heading st = "New Announcement" <->
       AdminDashboardPage.editId st = None \/ AdminDashboardPage.editId st = Some "")) /\
  ((forall (env : Env) (a : AdminCoursesPage.Action) (st : AdminCoursesPage.State) id,
       AdminCoursesPage.editId (state_after (AdminCoursesPage.handle env a) st) = Some id ->
       AdminCoursesPage.editId st = Some id
       \/ exists course, a = AdminCoursesPage.ClickEdit course /\ id = Course._id course) /\
   (forall (env : Env) (a : AdminDashboardPage.Action) (st : AdminDashboardPage.State) id,
       AdminDashboardPage.editId (state_after (AdminDashboardPage.handle env a) st) = Some id ->
       AdminDashboardPage.editId st = Some id
       \/ exists x, a = AdminDashboardPage.ClickEdit x /\ id = Announcement._id x)) /\
  ((forall (env : Env) course (st : AdminCoursesPage.State),
       AdminCoursesPage.editId
         (state_after (AdminCoursesPage.handle env (AdminCoursesPage.ClickEdit course)) st)
       = Some (Course._id course)) /\
   (forall (env : Env) x (st : AdminDashboardPage.State),
       AdminDashboardPage.editId
         (state_after (AdminDashboardPage.handle env (AdminDashboardPage.ClickEdit x)) st)
       = Some (Announcement._id x))) /\
  ((forall (env : Env) (st : AdminCoursesPage.State),
       AdminCoursesPage.invalid st = false ->
       course_mutation (backend env) (CourseRequests.submit_request st) = AxiosResolved tt ->
       AdminCoursesPage.editId
         (state_after (AdminCoursesPage.handle env AdminCoursesPage.SubmitForm) st)
       = None) /\
   (forall (env : Env) (st : AdminDashboardPage.State) data,
       AdminDashboardPage.title st <> "" -> AdminDashboardPage.message st <> "" ->
       announcement_mutation (backend env) (AnnouncementRequests.submit_request env st)
         = FetchResponse true (Some data) ->
       AdminDashboardPage.editId
         (state_after (AdminDashboardPage.handle env AdminDashboardPage.ClickSubmit) st)
       = None)) /\
  ((forall (env : Env) (st : AdminCoursesPage.State),
       AdminCoursesPage.editId
         (state_after (AdminCoursesPage.handle env AdminCoursesPage.ClickCancel) st)
       = None) /\
   (forall (env : Env) (st : AdminDashboardPage.State),
       state_after (AdminDashboardPage.handle env AdminDashboardPage.DismissDialog) st
       = st)).
Proof.
  split; [split; reflexivity|].
  split.
  { split; intro st.
    - rewrite <- truthy_or_null_false. unfold AdminCoursesPage.modal_heading.
      destruct (truthy_or_null _); split; intro H; try reflexivity; discriminate H.
    - rewrite <- truthy_or_null_false. unfold AdminDashboardPage.dialog_heading.
      destruct (truthy_or_null _); split; intro H; try reflexivity; discriminate H. }
  split.
  { split.
    - intros env a st id.
      destruct a as [|course|course| | |v|v|v|v|v|v|v];
        try (cbn; intro H; first [discriminate H | now left]).
      + intro H. right. exists course. split; [reflexivity|].
        cbn in H. now injection H.
      + (* delete *)
        cbn [AdminCoursesPage.handle]. unfold state_after.
        destruct (confirm_answer env "Are you sure you want to delete this course?") eqn:C.
        * destruct (course_mutation (backend env)
                      (CourseRequests.delete_request (Course._id course))) as [u|] eqn:M.
          -- rewrite (CourseFacts.course_delete_resolved env _ st u C M).
             destruct (courses_endpoint _ _); cbn; now left.
          -- rewrite (CourseFacts.course_delete_rejected env _ st C M). now left.
        * rewrite (CourseFacts.course_delete_declined env _ st C). now left.
      + (* submit *)
        cbn [AdminCoursesPage.handle]. unfold state_after.
        destruct (AdminCoursesPage.invalid st) eqn:V.
        * rewrite (CourseFacts.course_submit_invalid env st V). now left.
        * destruct (course_mutation (backend env) (CourseRequests.submit_request st))
            as [u|] eqn:M.
          -- rewrite (CourseFacts.course_submit_resolved env st u V M).
             destruct (courses_endpoint _ _); cbn; intro H; discriminate H.
          -- rewrite (CourseFacts.course_submit_rejected env st V M). now left.
    - intros env a st id.
      destruct a as [| |v|v| |x|x];
        try (cbn; intro H; first [discriminate H | now left]).
      + (* submit *)
        cbn [AdminDashboardPage.handle]. unfold state_after.
        destruct (AdminDashboardPage.title st) as [|c t] eqn:T.
        { rewrite (AnnouncementFacts.announcement_submit_invalid env st (or_introl T)).
          now left. }
        destruct (AdminDashboardPage.message st) as [|c' m] eqn:Ms.
        { rewrite (AnnouncementFacts.announcement_submit_invalid env st (or_intror Ms)).
          now left. }
        rewrite (AnnouncementFacts.announcement_submit_valid env st);
          [|rewrite T; discriminate|rewrite Ms; discriminate].
        destruct (announcement_mutation _ _) as [|[|] [d|]]; cbn;
          intro H; first [discriminate H | now left].
      + intro H. right. exists x. split; [reflexivity|].
        cbn in H. now injection H.
      + (* delete *)
        cbn [AdminDashboardPage.handle]. unfold state_after.
        destruct (confirm_answer env "Are you sure?") eqn:C.
        * rewrite (AnnouncementFacts.announcement_delete_confirmed env _ st C).
          destruct (announcement_mutation _ _); now left.
        * rewrite (AnnouncementFacts.announcement_delete_declined env _ st C). now left. }
  split; [split; reflexivity|].
  split.
  { split.
    - intros env st V M. cbn [AdminCoursesPage.handle]. unfold state_after.
      rewrite (CourseFacts.course_submit_resolved env st tt V M).
      now destruct (courses_endpoint _ _).
    - intros env st data T Ms M. cbn [AdminDashboardPage.handle]. unfold state_after.
      rewrite (AnnouncementFacts.announcement_submit_valid env st T Ms), M.
      reflexivity. }
  split; reflexivity.
Qed.

Lemma editing_identifier_lifecycle_witness :
  let env := Samples.accepting Samples.backend_up in
  AdminCoursesPage.editId
    (state_after (AdminCoursesPage.handle env AdminCoursesPage.SubmitForm)
       Samples.edit_course_draft) = None /\
  AdminDashboardPage.editId
    (state_after (AdminDashboardPage.handle env AdminDashboardPage.ClickSubmit)
       Samples.edit_notice_draft) = None /\
  (AdminCoursesPage.editId Samples.edit_course_draft = Some "c1" \/
   exists course,
     AdminCoursesPage.ChangeLevel "ND2" = AdminCoursesPage.ClickEdit course /\
     "c1" = Course._id course).
Proof.
  intro env.
  destruct editing_identifier_lifecycle as (_ & _ & (O & _) & _ & (C & A) & _).
  split; [apply (C env Samples.edit_course_draft); reflexivity|].
  split.
  - apply (A env Samples.edit_notice_draft (Reply.mk None));
      try reflexivity; intro E; discriminate E.
  - apply (O env (AdminCoursesPage.ChangeLevel "ND2") Samples.edit_course_draft "c1").
    reflexivity.
Defined.

(** C9, as stated, fails on the dashboard: after the edit button, dismissing
    the dialog leaves the editing identifier set, and the dialog still
    opens in edit mode. *)
Lemma dismissed_dialog_keeps_editing_identifier :
  let env := Samples.accepting Samples.backend_up in
  let st :=
    state_after
      (bind (AdminDashboardPage.handle env (AdminDashboardPage.ClickEdit Samples.notice))
         (fun _ => AdminDashboardPage.handle env AdminDashboardPage.DismissDialog))
      Samples.dashboard in
  AdminDashboardPage.editId st = Some "a1" /\
  AdminDashboardPage.dialog_heading st = "Edit Announcement".
Proof.
  cbv zeta. split; reflexivity.
Qed.

(** C2, where it holds.  A course create, update or delete that the backend
    rejects leaves the whole page as it was (the modal open, the draft
    intact) and shows an error toast.  An announcement create or update
    that fails (the request is rejected, the body does not parse, or the
    response is not ok) shows an alert and leaves the announcements and the
    draft as they were.  An announcement delete whose request is rejected
    alerts "Delete failed" and leaves the page as it was. *)
Lemma failed_mutations_keep_the_page :
  (forall (env : Env) (st : AdminCoursesPage.State),
      AdminCoursesPage.invalid st = false ->
      course_mutation (backend env) (CourseRequests.submit_request st) = AxiosRejected ->
      state_after (AdminCoursesPage.handleSubmit env) st = st /\
      notifications (effects_of (AdminCoursesPage.handleSubmit env) st)
        = ["Failed to save course."]) /\
  (forall (env : Env) (id : string) (st : AdminCoursesPage.State),
      confirm_answer env "Are you sure you want to delete this course?" = true ->
      course_mutation (backend env) (CourseRequests.delete_request id) = AxiosRejected ->
      state_after (AdminCoursesPage.handleDelete env id) st = st /\
      notifications (effects_of (AdminCoursesPage.handleDelete env id) st)
        = ["Failed to delete course."]) /\
  (forall (env : Env) (st : AdminDashboardPage.State),
      AdminDashboardPage.title st <> "" -> AdminDashboardPage.message st <> "" ->
      (forall data,
          announcement_mutation (backend env) (AnnouncementRequests.submit_request env st)
            <> FetchResponse true (Some data)) ->
      let st' := state_after (AdminDashboardPage.handleSubmit env) st in
      AdminDashboardPage.announcements st' = AdminDashboardPage.announcements st /\
      AdminDashboardPage.title st' = AdminDashboardPage.title st /\
      AdminDashboardPage.message st' = AdminDashboardPage.message st /\
      AdminDashboardPage.editId st' = AdminDashboardPage.editId st /\
      exists msg,
        notifications (effects_of (AdminDashboardPage.handleSubmit env) st) = [msg] /\
        (msg = "Server error"
         \/ exists data, msg = or_else (Reply.error data) "Failed to submit")) /\
  (forall (env : Env) (id : string) (st : AdminDashboardPage.State),
      confirm_answer env "Are you sure?" = true ->
      announcement_mutation (backend env) (AnnouncementRequests.delete_request id)
        = FetchRejected ->
      state_after (AdminDashboardPage.handleDelete env id) st = st /\
      notifications (effects_of (AdminDashboardPage.handleDelete env id) st)
        = ["Delete failed"]).
Proof.
  split; [|split; [|split]].
  - intros env st V M. unfold state_after, effects_of.
    now rewrite (CourseFacts.course_submit_rejected env st V M).
  - intros env id st C M. unfold state_after, effects_of.
    now rewrite (CourseFacts.course_delete_rejected env id st C M).
  - intros env st T Ms F st'. subst st'. unfold state_after, effects_of.
    rewrite (AnnouncementFacts.announcement_submit_valid env st T Ms).
    destruct (announcement_mutation _ _) as [|[|] [d|]];
      try (now elim (F d)); cbn; repeat split.
    + exists "Server error". split; [reflexivity | now left].
    + exists "Server error". split; [reflexivity | now left].
    + exists (or_else (Reply.error d) "Failed to submit").
      split; [reflexivity | right; now exists d].
    + exists "Server error". split; [reflexivity | now left].
  - intros env id st C M. unfold state_after, effects_of.
    now rewrite (AnnouncementFacts.announcement_delete_confirmed env id st C), M.
Qed.

(** C2, where the code breaks it.  The backend answers an announcement
    delete with an error status: the dashboard alerts "Deleted" and reloads
    the page. *)
Example refused_announcement_delete_reports_deleted :
  run (AdminDashboardPage.handleDelete (Samples.accepting Samples.backend_refusing) "a1")
    Samples.dashboard
  = (Returned tt, Samples.dashboard,
     [Confirm "Are you sure?";
      Sent (mkRequest DELETE "https://forestryapi.onrender.com/announcements/a1"
              [] NoBody);
      Alert "Deleted";
      Reload]).
Proof.
  reflexivity.
Qed.

(** C4, where it holds.  Every request of the announcement submit handler
    carries [Authorization: Bearer <adminToken>], the token read from
    [localStorage]; no request of the course page carries an
    [Authorization] header. *)
Lemma token_goes_with_announcement_submit_only :
  (forall (env : Env) (st : AdminDashboardPage.State) (r : Request),
      In r (requests (effects_of (AdminDashboardPage.handleSubmit env) st)) ->
      authorization r
        = Some ("Bearer " ++ interpolate (localStorage env "adminToken"))%string) /\
  (forall (env : Env) (a : AdminCoursesPage.Action) (st : AdminCoursesPage.State)
          (r : Request),
      In r (requests (effects_of (AdminCoursesPage.handle env a) st)) ->
      authorization r = None).
Proof.
  split.
  - intros env st r. unfold effects_of.
    destruct (AdminDashboardPage.title st) as [|c t] eqn:T.
    { rewrite (AnnouncementFacts.announcement_submit_invalid env st (or_introl T)).
      intros []. }
    destruct (AdminDashboardPage.message st) as [|c' m] eqn:Ms.
    { rewrite (AnnouncementFacts.announcement_submit_invalid env st (or_intror Ms)).
      intros []. }
    rewrite (AnnouncementFacts.announcement_submit_valid env st);
      [|rewrite T; discriminate|rewrite Ms; discriminate].
    destruct (announcement_mutation _ _) as [|[|] [d|]];
      (intros [<-|[]]; reflexivity).
  - intros env a st r.
    destruct a as [|course|course| | |v|v|v|v|v|v|v];
      try (cbn; now intros []).
    + cbn [AdminCoursesPage.handle]. unfold effects_of.
      destruct (confirm_answer env "Are you sure you want to delete this course?") eqn:C.
      * destruct (course_mutation (backend env)
                    (CourseRequests.delete_request (Course._id course))) as [u|] eqn:M.
        -- rewrite (CourseFacts.course_delete_resolved env _ st u C M).
           destruct (courses_endpoint _ _); cbn;
             intros [<-|[<-|[]]]; reflexivity.
        -- rewrite (CourseFacts.course_delete_rejected env _ st C M).
           cbn. intros [<-|[]]; reflexivity.
      * rewrite (CourseFacts.course_delete_declined env _ st C). intros [].
    + cbn [AdminCoursesPage.handle]. unfold effects_of.
      assert (A : authorization (CourseRequests.submit_request st) = None)
        by (unfold CourseRequests.submit_request; now destruct (truthy_or_null _)).
      destruct (AdminCoursesPage.invalid st) eqn:V.
      * rewrite (CourseFacts.course_submit_invalid env st V). intros [].
      * destruct (course_mutation (backend env) (CourseRequests.submit_request st))
          as [u|] eqn:M.
        -- rewrite (CourseFacts.course_submit_resolved env st u V M).
           destruct (courses_endpoint _ _); cbn;
             (intros [<-|[<-|[]]]; [exact A | reflexivity]).
        -- rewrite (CourseFacts.course_submit_rejected env st V M).
           cbn. intros [<-|[]]. exact A.
Qed.

(** C4, where the code breaks it.  The delete request of the dashboard
    carries no header at all, although the token is in [localStorage]. *)
Example announcement_delete_carries_no_token :
  localStorage (Samples.accepting Samples.backend_up) "adminToken" = Some "secret" /\
  requests
    (effects_of
       (AdminDashboardPage.handleDelete (Samples.accepting Samples.backend_up) "a1")
       Samples.dashboard)
  = [mkRequest DELETE "https://forestryapi.onrender.com/announcements/a1" [] NoBody] /\
  map authorization
    (requests
       (effects_of
          (AdminDashboardPage.handleDelete (Samples.accepting Samples.backend_up) "a1")
          Samples.dashboard))
  = [None].
Proof.
  repeat split.
Qed.

(* ================================================================== *)
(** * Beyond the claims *)
(* ================================================================== *)

(** ** What the pages show *)




(** X2.  The student page on mount.  Without a [studentToken] (none, or
    the empty string) it navigates to /login, sends nothing and stays in
    its loading state.  With a token it sends exactly one GET of the
    announcements, without any header, and ends with [loading] false
    whatever the backend answers. *)
Theorem student_mount_redirects_or_loads :
  forall (env : Env) (st : StudentDashboard.State),
    (localStorage env "studentToken" = None
     \/ localStorage env "studentToken" = Some "" ->
     run (StudentDashboard.mount env) st
       = (Returned tt, st, [Navigate "/login"])) /\
    (forall token, localStorage env "studentToken" = Some token -> token <> "" ->
       requests (effects_of (StudentDashboard.mount env) st)
         = [mkRequest GET "https://forestryapi.onrender.com/announcements" [] NoBody] /\
       StudentDashboard.loading (state_after (StudentDashboard.mount env) st) = false /\
       ~ In (Navigate "/login") (effects_of (StudentDashboard.mount env) st)).
Proof.
  intros env st. split.
  - intro H. apply truthy_or_null_false in H.
    unfold run, StudentDashboard.mount, localStorage_getItem, bind, ret, router_push, emit.
    now rewrite H.
  - intros token E N.
    assert (T : truthy_or_null (localStorage env "studentToken") = true)
      by (apply truthy_or_null_true; now exists token).
    pose proof (StudentFacts.student_fetch_run env st) as F.
    unfold effects_of, state_after, run in *.
    unfold StudentDashboard.mount, localStorage_getItem, bind, ret.
    rewrite T. cbn [negb]. rewrite F.
    destruct (announcements_endpoint _ _) as [|ok [d|]]; cbn;
      repeat split; intro H;
      repeat (destruct H as [H|H]; [discriminate H|]); exact H.
Qed.

Lemma student_mount_redirects_or_loads_witness :
  let env := mkEnv Samples.backend_down (fun _ => true)
               (fun key => if String.eqb key "studentToken" then Some "t0" else None) in
  run (StudentDashboard.mount (Samples.accepting Samples.backend_up))
    StudentDashboard.initial
    = (Returned tt, StudentDashboard.initial, [Navigate "/login"]) /\
  StudentDashboard.loading (state_after (StudentDashboard.mount env) StudentDashboard.initial)
    = false.
Proof.
  intro env. split.
  - apply (student_mount_redirects_or_loads (Samples.accepting Samples.backend_up)).
    now left.
  - destruct (student_mount_redirects_or_loads env StudentDashboard.initial) as (_ & L).
    destruct (L "t0" eq_refl) as (_ & K & _); [intro E; discriminate E | exact K].
Defined.

(** X3.  What the student sees once the load has settled: never the
    loading paragraph; the "No announcements" paragraph exactly when the
    cached list is empty, the list otherwise.  A load that fails keeps the
    cached list, so from the initial state a failed load is shown as "No
    announcements at the moment.", the same as an empty answer. *)
Theorem student_section_after_load :
  forall (env : Env) (st : StudentDashboard.State),
    let st' := state_after (StudentDashboard.fetchAnnouncements env) st in
    StudentDashboard.announcements_section st'
      <> StudentDashboard.Paragraph "Loading announcements..." /\
    (StudentDashboard.announcements_section st'
       = StudentDashboard.Paragraph "No announcements at the moment."
     <-> StudentDashboard.announcements st' = []) /\
    (StudentDashboard.announcements st' <> [] ->
     StudentDashboard.announcements_section st'
       = StudentDashboard.Items (StudentDashboard.announcements st')) /\
    (notifications (effects_of (StudentDashboard.fetchAnnouncements env) st) = []) /\
    ((forall ok data,
         announcements_endpoint (backend env)
           (mkRequest GET StudentDashboard.announcements_url [] NoBody)
         <> FetchResponse ok (Some data)) ->
     StudentDashboard.announcements st = [] ->
     StudentDashboard.announcements_section st'
       = StudentDashboard.Paragraph "No announcements at the moment.").
Proof.
  intros env st st'.
  assert (L : StudentDashboard.loading st' = false).
  { subst st'. unfold state_after. rewrite StudentFacts.student_fetch_run.
    now destruct (announcements_endpoint _ _) as [|ok [d|]]. }
  assert (V : forall s, StudentDashboard.loading s = false ->
              StudentDashboard.announcements_section s
              = match StudentDashboard.announcements s with
                | [] => StudentDashboard.Paragraph "No announcements at the moment."
                | _ :: _ => StudentDashboard.Items (StudentDashboard.announcements s)
                end).
  { intros s Hs. unfold StudentDashboard.announcements_section. rewrite Hs.
    now destruct (StudentDashboard.announcements s). }
  rewrite (V st' L).
  split; [|split; [|split; [|split]]].
  - destruct (StudentDashboard.announcements st'); discriminate.
  - destruct (StudentDashboard.announcements st'); split; intro H;
      try reflexivity; discriminate H.
  - intro H. destruct (StudentDashboard.announcements st'); [now elim H | reflexivity].
  - unfold effects_of. rewrite StudentFacts.student_fetch_run.
    now destruct (announcements_endpoint _ _) as [|ok [d|]].
  - intros F E.
    assert (K : StudentDashboard.announcements st' = []).
    { subst st'. unfold state_after. rewrite StudentFacts.student_fetch_run.
      destruct (announcements_endpoint _ _) as [|ok [d|]]; cbn; try exact E.
      now elim (F ok d). }
    now rewrite K.
Qed.

Lemma student_section_after_load_witness :
  StudentDashboard.announcements_section
    (state_after (StudentDashboard.fetchAnnouncements (Samples.accepting Samples.backend_down))
       StudentDashboard.initial)
  = StudentDashboard.Paragraph "No announcements at the moment.".
Proof.
  destruct (student_section_after_load (Samples.accepting Samples.backend_down)
              StudentDashboard.initial) as (_ & _ & _ & _ & F).
  apply F; [intros ok data E; discriminate E | reflexivity].
Defined.

(** ** Loads on mount *)

(** X4.  The dashboard on mount.  The page navigates to /login exactly when
    there is no [adminToken] (none, or the empty string), and it sends its
    two loads, GET /admin/stats and GET /announcements, whether or not
    there is a token.  Each load stores the body of its response when the
    body parses, whatever the status, and keeps the cached value otherwise;
    nothing is shown to the user.  The two loads are not awaited: whichever
    response arrives first, the page ends in the same state. *)
Theorem dashboard_mount_loads_without_token :
  forall (env : Env) (st : AdminDashboardPage.State),
    let stats_request := mkRequest GET "https://forestryapi.onrender.com/admin/stats" [] NoBody in
    let list_request := mkRequest GET "https://forestryapi.onrender.com/announcements" [] NoBody in
    let st' := state_after (AdminDashboardPage.on_mount env) st in
    let log := effects_of (AdminDashboardPage.on_mount env) st in
    requests log = [stats_request; list_request] /\
    notifications log = [] /\
    (In (Navigate "/login") log
     <-> localStorage env "adminToken" = None
         \/ localStorage env "adminToken" = Some "") /\
    (forall ok data, stats_endpoint (backend env) stats_request = FetchResponse ok (Some data) ->
                     AdminDashboardPage.stats st' = data) /\
    ((forall ok data, stats_endpoint (backend env) stats_request <> FetchResponse ok (Some data)) ->
     AdminDashboardPage.stats st' = AdminDashboardPage.stats st) /\
    (forall ok data, announcements_endpoint (backend env) list_request = FetchResponse ok (Some data) ->
                     AdminDashboardPage.announcements st' = data) /\
    ((forall ok data, announcements_endpoint (backend env) list_request <> FetchResponse ok (Some data)) ->
     AdminDashboardPage.announcements st' = AdminDashboardPage.announcements st) /\
    state_after
      (bind (AdminDashboardPage.guard env) (fun _ =>
       bind AdminDashboardPage.fetchStats_sent (fun _ =>
       bind AdminDashboardPage.fetchAnnouncements_sent (fun _ =>
       bind (AdminDashboardPage.fetchStats_settled env) (fun _ =>
       AdminDashboardPage.fetchAnnouncements_settled env))))) st = st' /\
    state_after
      (bind (AdminDashboardPage.guard env) (fun _ =>
       bind AdminDashboardPage.fetchStats_sent (fun _ =>
       bind AdminDashboardPage.fetchAnnouncements_sent (fun _ =>
       bind (AdminDashboardPage.fetchAnnouncements_settled env) (fun _ =>
       AdminDashboardPage.fetchStats_settled env))))) st = st'.
Proof.
  intros env st stats_request list_request st' log.
  subst stats_request list_request st' log.
  unfold AdminDashboardPage.guard.
  run_page.
  destruct (localStorage env "adminToken") as [[|c t]|] eqn:T; cbn [truthy_or_null truthy negb];
    destruct (stats_endpoint _ _) as [|sok [sd|]] eqn:S;
    destruct (announcements_endpoint _ _) as [|aok [ad|]] eqn:A;
    cbn [requests notifications notification In];
    (split; [reflexivity|]); (split; [reflexivity|]);
    (split;
     [split;
      [ intro H; first [now left | now right
                        | repeat (destruct H as [H|H]; [discriminate H|]); now elim H]
      | intros [H|H]; first [discriminate H | now left] ]
     |]);
    repeat split;
    try (intros ok data E; now injection E);
    try (intros ok data E; discriminate E);
    try (intros F; now (elim (F sok sd) || elim (F aok ad))).
Qed.

Lemma dashboard_mount_loads_without_token_witness :
  let env := mkEnv Samples.backend_up (fun _ => true) (fun _ => None) in
  requests (effects_of (AdminDashboardPage.on_mount env) AdminDashboardPage.initial)
    = [mkRequest GET "https://forestryapi.onrender.com/admin/stats" [] NoBody;
       mkRequest GET "https://forestryapi.onrender.com/announcements" [] NoBody] /\
  In (Navigate "/login")
    (effects_of (AdminDashboardPage.on_mount env) AdminDashboardPage.initial) /\
  AdminDashboardPage.stats
    (state_after (AdminDashboardPage.on_mount env) AdminDashboardPage.initial)
    = AdminDashboardPage.stats AdminDashboardPage.initial.
Proof.
  intro env.
  destruct (dashboard_mount_loads_without_token env AdminDashboardPage.initial)
    as (R & _ & N & _ & K & _).
  split; [exact R|]. split; [apply N; now left|].
  apply K. intros ok data E. discriminate E.
Defined.

(** X5.  The course page on mount.  The three loads are started without
    being awaited: the three GET requests leave in the order courses,
    lecturers, departments, and the responses may arrive in any order.
    Whatever the order, the page ends in the same state, with [loading]
    false, and the toasts of the loads that failed appear in the order of
    arrival. *)
Theorem course_mount_any_arrival_order :
  forall (env : Env) (st : AdminCoursesPage.State)
         (a b c : AdminCoursesPage.Load),
    a <> b -> a <> c -> b <> c ->
    let arrived :=
      bind AdminCoursesPage.mount_sent (fun _ =>
      bind (AdminCoursesPage.settled env a) (fun _ =>
      bind (AdminCoursesPage.settled env b) (fun _ =>
      AdminCoursesPage.settled env c))) in
    state_after arrived st = state_after (AdminCoursesPage.mount env) st /\
    AdminCoursesPage.loading (state_after arrived st) = false /\
    requests (effects_of arrived st)
      = [mkRequest GET "https://forestryapi.onrender.com/courses" [] NoBody;
         mkRequest GET "https://forestryapi.onrender.com/lecturers" [] NoBody;
         mkRequest GET "https://forestryapi.onrender.com/departments" [] NoBody] /\
    requests (effects_of (AdminCoursesPage.mount env) st)
      = requests (effects_of arrived st) /\
    notifications (effects_of arrived st)
      = notifications (effects_of (AdminCoursesPage.settled env a) st)
        ++ notifications (effects_of (AdminCoursesPage.settled env b) st)
        ++ notifications (effects_of (AdminCoursesPage.settled env c) st).
Proof.
  intros env st a b c Hab Hac Hbc arrived. subst arrived.
  destruct a, b, c; try (now elim Hab); try (now elim Hac); try (now elim Hbc);
    run_page;
    destruct (courses_endpoint _ _), (lecturers_endpoint _ _),
             (departments_endpoint _ _);
    repeat split.
Qed.

Lemma course_mount_any_arrival_order_witness :
  let env := Samples.accepting Samples.backend_down in
  let arrived :=
    bind AdminCoursesPage.mount_sent (fun _ =>
    bind (AdminCoursesPage.settled env AdminCoursesPage.Departments) (fun _ =>
    bind (AdminCoursesPage.settled env AdminCoursesPage.Courses) (fun _ =>
    AdminCoursesPage.settled env AdminCoursesPage.Lecturers))) in
  state_after arrived AdminCoursesPage.initial
    = state_after (AdminCoursesPage.mount env) AdminCoursesPage.initial /\
  notifications (effects_of arrived AdminCoursesPage.initial)
    = ["Failed to fetch departments."; "Failed to fetch courses.";
       "Failed to fetch lecturers."].
Proof.
  intros env arrived.
  destruct (course_mount_any_arrival_order env AdminCoursesPage.initial
              AdminCoursesPage.Departments AdminCoursesPage.Courses
              AdminCoursesPage.Lecturers) as (S & _ & _ & _ & N);
    try (intro E; discriminate E).
  split; [exact S | exact N].
Defined.

(** ** Invariants of the handlers *)

(** X6.  The dashboard never stays busy: whatever the user does and
    whatever the backend answers, a page whose [submitting] flag is off has
    it off again once the handler has settled; and a submit that passes the
    guard ends with the flag off even if it was on. *)
Theorem dashboard_settles_not_submitting :
  (forall (env : Env) (a : AdminDashboardPage.Action) (st : AdminDashboardPage.State),
      AdminDashboardPage.submitting st = false ->
      AdminDashboardPage.submitting (state_after (AdminDashboardPage.handle env a) st)
        = false) /\
  (forall (env : Env) (st : AdminDashboardPage.State),
      AdminDashboardPage.title st <> "" -> AdminDashboardPage.message st <> "" ->
      AdminDashboardPage.submitting (state_after (AdminDashboardPage.handleSubmit env) st)
        = false).
Proof.
  split.
  - intros env a st H. destruct a; run_handler; case_answers; cbn; auto.
  - intros env st T M. unfold state_after.
    rewrite (AnnouncementFacts.announcement_submit_valid env st T M).
    now destruct (announcement_mutation _ _) as [|[|] [d|]].
Qed.

Lemma dashboard_settles_not_submitting_witness :
  AdminDashboardPage.submitting
    (state_after
       (AdminDashboardPage.handle (Samples.accepting Samples.backend_refusing)
          AdminDashboardPage.ClickSubmit)
       Samples.new_notice_draft) = false.
Proof.
  destruct dashboard_settles_not_submitting as (I & _).
  apply I. reflexivity.
Defined.

(** X7.  The course page never stays loading: whatever the user does and
    whatever the backend answers, a page whose [loading] flag is off has it
    off again once the handler has settled, and the loads on mount end with
    the flag off from any state. *)
Theorem course_page_settles_not_loading :
  (forall (env : Env) (a : AdminCoursesPage.Action) (st : AdminCoursesPage.State),
      AdminCoursesPage.loading st = false ->
      AdminCoursesPage.loading (state_after (AdminCoursesPage.handle env a) st)
        = false) /\
  (forall (env : Env) (st : AdminCoursesPage.State),
      AdminCoursesPage.loading (state_after (AdminCoursesPage.mount env) st) = false).
Proof.
  split.
  - intros env a st H. destruct a; run_handler; case_answers; cbn; auto.
  - intros env st. run_handler. case_answers; reflexivity.
Qed.

Lemma course_page_settles_not_loading_witness :
  AdminCoursesPage.loading
    (state_after
       (AdminCoursesPage.handle (Samples.accepting Samples.backend_down)
          (AdminCoursesPage.ClickDelete Samples.populated_course))
       Samples.new_course_draft) = false.
Proof.
  destruct course_page_settles_not_loading as (I & _).
  apply I. reflexivity.
Defined.

(** X8.  No handler lets a rejection escape: every event handler of the
    course page and of the dashboard, and the effects on mount of the three
    pages, return normally whatever the backend answers, the network being
    down included. *)
Theorem handlers_never_throw :
  (forall (env : Env) (a : AdminCoursesPage.Action) (st : AdminCoursesPage.State),
      fst (fst (run (AdminCoursesPage.handle env a) st)) = Returned tt) /\
  (forall (env : Env) (a : AdminDashboardPage.Action) (st : AdminDashboardPage.State),
      fst (fst (run (AdminDashboardPage.handle env a) st)) = Returned tt) /\
  (forall (env : Env) (st : AdminCoursesPage.State),
      fst (fst (run (AdminCoursesPage.mount env) st)) = Returned tt) /\
  (forall (env : Env) (st : AdminDashboardPage.State),
      fst (fst (run (AdminDashboardPage.on_mount env) st)) = Returned tt) /\
  (forall (env : Env) (st : StudentDashboard.State),
      fst (fst (run (StudentDashboard.mount env) st)) = Returned tt).
Proof.
  split; [|split; [|split; [|split]]].
  - intros env a st. destruct a; run_handler; case_answers; reflexivity.
  - intros env a st. destruct a; run_handler; case_answers; reflexivity.
  - intros env st. run_handler. case_answers; reflexivity.
  - intros env st. unfold AdminDashboardPage.guard. run_page.
    case_answers; reflexivity.
  - intros env st. run_handler. case_answers; reflexivity.
Qed.

(** ** What the pages send *)

(** X9.  Every request that any handler or mount effect of the three pages
    sends goes to the one backend, https://forestryapi.onrender.com/, and
    its body follows its method: GET and DELETE carry none, POST and PUT
    carry one. *)
Theorem requests_are_well_formed :
  let well_formed (r : Request) :=
    String.prefix "https://forestryapi.onrender.com/" (url r) = true /\
    match method r with
    | GET | DELETE => body r = NoBody
    | POST | PUT => body r <> NoBody
    end in
  (forall (env : Env) (a : AdminCoursesPage.Action) (st : AdminCoursesPage.State) r,
      In r (requests (effects_of (AdminCoursesPage.handle env a) st)) -> well_formed r) /\
  (forall (env : Env) (a : AdminDashboardPage.Action) (st : AdminDashboardPage.State) r,
      In r (requests (effects_of (AdminDashboardPage.handle env a) st)) -> well_formed r) /\
  (forall (env : Env) (st : AdminCoursesPage.State) r,
      In r (requests (effects_of (AdminCoursesPage.mount env) st)) -> well_formed r) /\
  (forall (env : Env) (st : AdminDashboardPage.State) r,
      In r (requests (effects_of (AdminDashboardPage.on_mount env) st)) -> well_formed r) /\
  (forall (env : Env) (st : StudentDashboard.State) r,
      In r (requests (effects_of (StudentDashboard.mount env) st)) -> well_formed r).
Proof.
  cbv zeta.
  split; [|split; [|split; [|split]]].
  - intros env a st r. destruct a; run_handler; case_answers; intro H; member H;
      (split; [reflexivity | cbn; first [reflexivity | discriminate]]).
  - intros env a st r. destruct a; run_handler; case_answers; intro H; member H;
      (split; [reflexivity | cbn; first [reflexivity | discriminate]]).
  - intros env st r. run_handler. case_answers; intro H; member H;
      (split; reflexivity).
  - intros env st r. run_page. case_answers; intro H; member H;
      (split; reflexivity).
  - intros env st r. run_handler. case_answers; intro H; member H;
      (split; reflexivity).
Qed.

Lemma requests_are_well_formed_witness :
  let r := mkRequest DELETE "https://forestryapi.onrender.com/courses/c1" [] NoBody in
  String.prefix "https://forestryapi.onrender.com/" (url r) = true /\
  body r = NoBody.
Proof.
  destruct requests_are_well_formed as (C & _).
  apply (C (Samples.accepting Samples.backend_up)
           (AdminCoursesPage.ClickDelete Samples.populated_course)
           Samples.new_course_draft
           (mkRequest DELETE "https://forestryapi.onrender.com/courses/c1" [] NoBody)).
  left. reflexivity.
Defined.

(** X10.  One user action, at most one mutation: every action on the
    course page or on the dashboard sends no create, update or delete
    request or exactly one, never two, and only a submit or a delete sends
    any request at all. *)
Theorem one_mutation_per_action :
  (forall (env : Env) (a : AdminCoursesPage.Action) (st : AdminCoursesPage.State),
      let log := effects_of (AdminCoursesPage.handle env a) st in
      (mutations log = [] \/ exists r, mutations log = [r]) /\
      (requests log <> [] ->
       a = AdminCoursesPage.SubmitForm
       \/ exists course, a = AdminCoursesPage.ClickDelete course)) /\
  (forall (env : Env) (a : AdminDashboardPage.Action) (st : AdminDashboardPage.State),
      let log := effects_of (AdminDashboardPage.handle env a) st in
      (requests log = [] \/ exists r, requests log = [r] /\ is_mutation r = true) /\
      (requests log <> [] ->
       a = AdminDashboardPage.ClickSubmit
       \/ exists x, a = AdminDashboardPage.ClickDelete x)).
Proof.
  split.
  - intros env a st log. subst log.
    destruct a; run_handler; case_answers; cbn;
      (split;
       [ first [now left | right; eexists; reflexivity]
       | intro H; first [now elim H | now left | right; eexists; reflexivity] ]).
  - intros env a st log. subst log.
    destruct a; run_handler; case_answers; cbn;
      (split;
       [ first [now left | right; eexists; split; reflexivity]
       | intro H; first [now elim H | now left | right; eexists; reflexivity] ]).
Qed.

Lemma one_mutation_per_action_witness :
  let log :=
    effects_of
      (AdminCoursesPage.handle (Samples.accepting Samples.backend_up)
         AdminCoursesPage.SubmitForm)
      Samples.new_course_draft in
  (mutations log = [] \/ exists r, mutations log = [r]) /\
  (AdminCoursesPage.SubmitForm = AdminCoursesPage.SubmitForm
   \/ exists course, AdminCoursesPage.SubmitForm = AdminCoursesPage.ClickDelete course).
Proof.
  destruct one_mutation_per_action as (C & _).
  destruct (C (Samples.accepting Samples.backend_up)
              AdminCoursesPage.SubmitForm Samples.new_course_draft)
    as (M & K).
  split; [exact M|]. apply K. discriminate.
Defined.

(** X11.  The course page reports a mutation truthfully: for a draft that
    passes the guard, the success toast ("Course updated." or "Course
    created.") is shown exactly when the backend accepted the request and
    the "Failed to save course." toast exactly when it rejected it; for a
    confirmed delete, "Course deleted." is shown exactly when the backend
    accepted the request and "Failed to delete course." exactly when it
    rejected it. *)
Theorem course_toasts_follow_the_backend :
  (forall (env : Env) (st : AdminCoursesPage.State),
      AdminCoursesPage.courseCode st <> "" ->
      AdminCoursesPage.courseTitle st <> "" ->
      isNaN (AdminCoursesPage.creditUnits st) = false ->
      let log := effects_of (AdminCoursesPage.handleSubmit env) st in
      exists r,
        mutations log = [r] /\
        ((exists u, course_mutation (backend env) r = AxiosResolved u)
         <-> In (ToastSuccess
                   (if truthy_or_null (AdminCoursesPage.editId st)
                    then "Course updated." else "Course created.")) log) /\
        (course_mutation (backend env) r = AxiosRejected
         <-> In (ToastError "Failed to save course.") log)) /\
  (forall (env : Env) (id : string) (st : AdminCoursesPage.State),
      confirm_answer env "Are you sure you want to delete this course?" = true ->
      let log := effects_of (AdminCoursesPage.handleDelete env id) st in
      exists r,
        mutations log = [r] /\
        ((exists u, course_mutation (backend env) r = AxiosResolved u)
         <-> In (ToastSuccess "Course deleted.") log) /\
        (course_mutation (backend env) r = AxiosRejected
         <-> In (ToastError "Failed to delete course.") log)).
Proof.
  split.
  - intros env st Hc Ht Hn log. subst log.
    assert (V : AdminCoursesPage.invalid st = false)
      by (apply CourseFacts.valid_spec; auto).
    exists (CourseRequests.submit_request st).
    assert (I : is_mutation (CourseRequests.submit_request st) = true)
      by (unfold CourseRequests.submit_request; now destruct (truthy_or_null _)).
    unfold effects_of.
    destruct (course_mutation (backend env) (CourseRequests.submit_request st))
      as [u|] eqn:M.
    + rewrite (CourseFacts.course_submit_resolved env _ u V M).
      unfold CourseRequests.submit_toast.
      destruct (courses_endpoint _ _); cbn [snd mutations requests filter];
        rewrite I; cbn [is_mutation CourseRequests.list_request method filter];
        (split; [reflexivity|]);
        (split; split; intro H;
         [ right; left; reflexivity | now exists u | discriminate H
         | member H ]).
    + rewrite (CourseFacts.course_submit_rejected env _ V M).
      cbn [snd mutations requests filter]. rewrite I.
      split; [reflexivity|].
      split; split; intro H;
        [ destruct H as (u & H); discriminate H
        | member H; destruct (truthy_or_null _); discriminate H
        | right; left; reflexivity | reflexivity ].
  - intros env id st C log. subst log.
    exists (CourseRequests.delete_request id). unfold effects_of.
    destruct (course_mutation (backend env) (CourseRequests.delete_request id))
      as [u|] eqn:M.
    + rewrite (CourseFacts.course_delete_resolved env id st u C M).
      destruct (courses_endpoint _ _); cbn;
        (split; [reflexivity|]);
        (split; split; intro H;
         [ right; right; left; reflexivity | now exists u | discriminate H
         | member H ]).
    + rewrite (CourseFacts.course_delete_rejected env id st C M). cbn.
      split; [reflexivity|].
      split; split; intro H;
        [ destruct H as (u & H); discriminate H
        | member H
        | right; right; left; reflexivity | reflexivity ].
Qed.

Lemma course_toasts_follow_the_backend_witness :
  let env := Samples.accepting Samples.backend_down in
  ~ In (ToastSuccess "Course created.")
      (effects_of (AdminCoursesPage.handleSubmit env) Samples.new_course_draft) /\
  In (ToastError "Failed to save course.")
    (effects_of (AdminCoursesPage.handleSubmit env) Samples.new_course_draft).
Proof.
  intro env.
  destruct course_toasts_follow_the_backend as (S & _).
  destruct (S env Samples.new_course_draft) as (r & M & (_ & Y) & (F & _));
    try (intro E; discriminate E); try reflexivity.
  injection M as <-.
  split.
  - intro H. destruct (Y H) as (u & E). discriminate E.
  - apply F. reflexivity.
Defined.

(** X12.  No handler patches a cached collection.  On the dashboard no
    user action changes the cached announcements or the statistics: they
    change only when the page loads.  On the course page no user action
    changes the cached lecturers or departments, and the cached courses
    either stay as they are or become the answer of a GET of the course
    collection that the action sent. *)
Theorem actions_never_patch_the_cache :
  (forall (env : Env) (a : AdminDashboardPage.Action) (st : AdminDashboardPage.State),
      let st' := state_after (AdminDashboardPage.handle env a) st in
      AdminDashboardPage.announcements st' = AdminDashboardPage.announcements st /\
      AdminDashboardPage.stats st' = AdminDashboardPage.stats st) /\
  (forall (env : Env) (a : AdminCoursesPage.Action) (st : AdminCoursesPage.State),
      let st' := state_after (AdminCoursesPage.handle env a) st in
      AdminCoursesPage.lecturers st' = AdminCoursesPage.lecturers st /\
      AdminCoursesPage.departments st' = AdminCoursesPage.departments st /\
      (AdminCoursesPage.courses st' = AdminCoursesPage.courses st
       \/ (courses_endpoint (backend env) CourseRequests.list_request
             = AxiosResolved (AdminCoursesPage.courses st') /\
           In CourseRequests.list_request
             (requests (effects_of (AdminCoursesPage.handle env a) st))))).
Proof.
  split.
  - intros env a st st'. subst st'.
    destruct a; run_handler; case_answers; split; reflexivity.
  - intros env a st st'. subst st'. unfold CourseRequests.list_request.
    destruct a; run_handler; case_answers; cbn;
      (split; [reflexivity|]); (split; [reflexivity|]);
      first [ now left
            | right; split;
              [ reflexivity
              | first [ left; reflexivity | right; left; reflexivity ] ] ].
Qed.

(** ** Sessions *)

Lemma perform_app {S A : Type} (handle : A -> Task S unit) (l1 l2 : list A) :
  forall st log,
    perform handle (l1 ++ l2) st log
    = bind (perform handle l1) (fun _ => perform handle l2) st log.
Proof.
  induction l1 as [|a l1 IH]; intros st log.
  - reflexivity.
  - cbn [app perform]. unfold bind.
    destruct (handle a st log) as [[[[]|] st'] log']; [|reflexivity].
    rewrite IH. reflexivity.
Qed.

(** After actions that left the log empty, one more action does what it
    does on its own from the state they left. *)
Lemma perform_then {S A : Type} (handle : A -> Task S unit) (l : list A) (a : A) :
  forall st st1,
    run (perform handle l) st = (Returned tt, st1, []) ->
    state_after (perform handle (l ++ [a])) st = state_after (handle a) st1 /\
    effects_of (perform handle (l ++ [a])) st = effects_of (handle a) st1.
Proof.
  intros st st1 H. unfold state_after, effects_of, run in *.
  rewrite perform_app. unfold bind. rewrite H.
  cbn [perform]. unfold bind, ret.
  now destruct (handle a st1 []) as [[[[]|] st'] log'].
Qed.

Lemma course_typing_is_quiet env (l : list AdminCoursesPage.Action) :
  forallb course_typing l = true ->
  forall st, exists st1,
    run (perform (AdminCoursesPage.handle env) l) st = (Returned tt, st1, []) /\
    AdminCoursesPage.editId st1 = AdminCoursesPage.editId st.
Proof.
  induction l as [|a l IH]; intros H st.
  - exists st. split; reflexivity.
  - cbn [forallb] in H. apply andb_true_iff in H as [Ha Hl].
    destruct a; try discriminate Ha;
      match goal with
      | |- context [perform _ (?a :: _)] =>
          destruct (IH Hl (state_after (AdminCoursesPage.handle env a) st))
            as (st1 & R & E)
      end;
      exists st1; (split; [exact R | rewrite E; reflexivity]).
Qed.

Lemma announcement_typing_is_quiet env (l : list AdminDashboardPage.Action) :
  forallb announcement_typing l = true ->
  forall st, exists st1,
    run (perform (AdminDashboardPage.handle env) l) st = (Returned tt, st1, []) /\
    AdminDashboardPage.editId st1 = AdminDashboardPage.editId st.
Proof.
  induction l as [|a l IH]; intros H st.
  - exists st. split; reflexivity.
  - cbn [forallb] in H. apply andb_true_iff in H as [Ha Hl].
    destruct a; try discriminate Ha;
      match goal with
      | |- context [perform _ (?a :: _)] =>
          destruct (IH Hl (state_after (AdminDashboardPage.handle env a) st))
            as (st1 & R & E)
      end;
      exists st1; (split; [exact R | rewrite E; reflexivity]).
Qed.

(** X14.  On the course page, once a course has been opened for edit,
    changing the fields of the form never changes which record is saved:
    if the record's identifier is not empty and the draft passes the guard,
    the submit sends exactly one mutation, a PUT to that record's URL,
    whose body is the draft as it was typed. *)
Theorem course_edit_session_updates_the_opened_record :
  forall (env : Env) (course : Course.t)
         (typed : list AdminCoursesPage.Action) (st : AdminCoursesPage.State),
    forallb course_typing typed = true ->
    Course._id course <> "" ->
    let draft :=
      state_after
        (perform (AdminCoursesPage.handle env)
           (AdminCoursesPage.ClickEdit course :: typed)) st in
    AdminCoursesPage.courseCode draft <> "" ->
    AdminCoursesPage.courseTitle draft <> "" ->
    isNaN (AdminCoursesPage.creditUnits draft) = false ->
    mutations
      (effects_of
         (perform (AdminCoursesPage.handle env)
            (AdminCoursesPage.ClickEdit course :: typed ++ [AdminCoursesPage.SubmitForm]))
         st)
    = [mkRequest PUT
         ("https://forestryapi.onrender.com/courses/" ++ Course._id course)%string []
         (CourseJson (AdminCoursesPage.courseData_of draft))].
Proof.
  intros env course typed st Ht Hid draft Hc Htl Hn.
  set (st0 := state_after (AdminCoursesPage.handle env (AdminCoursesPage.ClickEdit course)) st).
  destruct (course_typing_is_quiet env typed Ht st0) as (st1 & R & E).
  assert (R' : run (perform (AdminCoursesPage.handle env)
                      (AdminCoursesPage.ClickEdit course :: typed)) st
               = (Returned tt, st1, [])) by exact R.
  assert (D : draft = st1) by (subst draft; unfold state_after; now rewrite R').
  rewrite D in *. clear D draft.
  change (AdminCoursesPage.ClickEdit course :: typed ++ [AdminCoursesPage.SubmitForm])
    with ((AdminCoursesPage.ClickEdit course :: typed) ++ [AdminCoursesPage.SubmitForm]).
  destruct (perform_then (AdminCoursesPage.handle env) _ AdminCoursesPage.SubmitForm
              st st1 R') as (_ & L).
  rewrite L. cbn [AdminCoursesPage.handle].
  assert (V : AdminCoursesPage.invalid st1 = false)
    by (apply CourseFacts.valid_spec; auto).
  destruct (CourseFacts.course_submit_valid_sends env st1 V) as (rest & F & M).
  rewrite F, M.
  assert (I : AdminCoursesPage.editId st1 = Some (Course._id course))
    by (rewrite E; reflexivity).
  unfold CourseRequests.submit_request, CourseRequests.update_request.
  rewrite I. cbn [truthy_or_null].
  apply truthy_true in Hid. rewrite Hid. reflexivity.
Qed.

Lemma course_edit_session_updates_the_opened_record_witness :
  mutations
    (effects_of
       (perform (AdminCoursesPage.handle (Samples.accepting Samples.backend_up))
          [AdminCoursesPage.ClickEdit Samples.populated_course;
           AdminCoursesPage.ChangeLevel "ND2";
           AdminCoursesPage.ChangeCreditUnits 4%float;
           AdminCoursesPage.SubmitForm])
       AdminCoursesPage.initial)
  = [mkRequest PUT "https://forestryapi.onrender.com/courses/c1" []
       (CourseJson
          (CourseData.mk "FOR101" "Silviculture" 4%float "l1" "ND2"
             "First Semester" "d1"))].
Proof.
  apply (course_edit_session_updates_the_opened_record
           (Samples.accepting Samples.backend_up) Samples.populated_course
           [AdminCoursesPage.ChangeLevel "ND2"; AdminCoursesPage.ChangeCreditUnits 4%float]
           AdminCoursesPage.initial);
    try reflexivity; intro E; discriminate E.
Defined.

(** X15.  On the dashboard, once an announcement has been selected for
    edit, typing in the form and opening or dismissing the dialog never
    change which record is saved: if the record's identifier is not empty
    and title and message are not empty, the submit sends exactly one
    request, a PUT to that announcement's URL with the bearer token, whose
    body is the title and the message as typed. *)
Theorem announcement_edit_session_updates_the_selected_record :
  forall (env : Env) (x : Announcement.t)
         (typed : list AdminDashboardPage.Action) (st : AdminDashboardPage.State),
    forallb announcement_typing typed = true ->
    Announcement._id x <> "" ->
    let draft :=
      state_after
        (perform (AdminDashboardPage.handle env)
           (AdminDashboardPage.ClickEdit x :: typed)) st in
    AdminDashboardPage.title draft <> "" ->
    AdminDashboardPage.message draft <> "" ->
    requests
      (effects_of
         (perform (AdminDashboardPage.handle env)
            (AdminDashboardPage.ClickEdit x :: typed ++ [AdminDashboardPage.ClickSubmit]))
         st)
    = [mkRequest PUT
         ("https://forestryapi.onrender.com/announcements/" ++ Announcement._id x)%string
         [("Content-Type", "application/json");
          ("Authorization",
           ("Bearer " ++ interpolate (localStorage env "adminToken"))%string)]
         (AnnouncementJson (AdminDashboardPage.title draft)
            (AdminDashboardPage.message draft))].
Proof.
  intros env x typed st Ht Hid draft Htl Hm.
  set (st0 := state_after (AdminDashboardPage.handle env (AdminDashboardPage.ClickEdit x)) st).
  destruct (announcement_typing_is_quiet env typed Ht st0) as (st1 & R & E).
  assert (R' : run (perform (AdminDashboardPage.handle env)
                      (AdminDashboardPage.ClickEdit x :: typed)) st
               = (Returned tt, st1, [])) by exact R.
  assert (D : draft = st1) by (subst draft; unfold state_after; now rewrite R').
  rewrite D in *. clear D draft.
  change (AdminDashboardPage.ClickEdit x :: typed ++ [AdminDashboardPage.ClickSubmit])
    with ((AdminDashboardPage.ClickEdit x :: typed) ++ [AdminDashboardPage.ClickSubmit]).
  destruct (perform_then (AdminDashboardPage.handle env) _ AdminDashboardPage.ClickSubmit
              st st1 R') as (_ & L).
  rewrite L. cbn [AdminDashboardPage.handle].
  unfold effects_of.
  rewrite (AnnouncementFacts.announcement_submit_valid env st1 Htl Hm).
  assert (I : AdminDashboardPage.editId st1 = Some (Announcement._id x))
    by (rewrite E; reflexivity).
  assert (Q : AnnouncementRequests.submit_request env st1
              = mkRequest PUT
                  ("https://forestryapi.onrender.com/announcements/" ++ Announcement._id x)%string
                  [("Content-Type", "application/json");
                   ("Authorization",
                    ("Bearer " ++ interpolate (localStorage env "adminToken"))%string)]
                  (AnnouncementJson (AdminDashboardPage.title st1)
                     (AdminDashboardPage.message st1))).
  { unfold AnnouncementRequests.submit_request. rewrite I. cbn [truthy_or_null].
    apply truthy_true in Hid. rewrite Hid. reflexivity. }
  rewrite Q.
  now destruct (announcement_mutation _ _) as [|[|] [d|]].
Qed.

Lemma announcement_edit_session_updates_the_selected_record_witness :
  map (fun r => (method r, url r, body r))
    (requests
       (effects_of
          (perform (AdminDashboardPage.handle (Samples.accepting Samples.backend_up))
             [AdminDashboardPage.ClickEdit Samples.notice;
              AdminDashboardPage.DismissDialog;
              AdminDashboardPage.OpenDialog;
              AdminDashboardPage.ChangeTitle "Holiday";
              AdminDashboardPage.ChangeMessage "No lectures on Friday.";
              AdminDashboardPage.ClickSubmit])
          Samples.dashboard))
  = [(PUT, "https://forestryapi.onrender.com/announcements/a1",
      AnnouncementJson "Holiday" "No lectures on Friday.")].
Proof.
  pose proof (announcement_edit_session_updates_the_selected_record
                (Samples.accepting Samples.backend_up) Samples.notice
                [AdminDashboardPage.DismissDialog; AdminDashboardPage.OpenDialog;
                 AdminDashboardPage.ChangeTitle "Holiday";
                 AdminDashboardPage.ChangeMessage "No lectures on Friday."]
                Samples.dashboard eq_refl) as H.
  cbv zeta in H. cbn [app] in H.
  rewrite H; [reflexivity | intro E; discriminate E ..].
Defined.

(** X16.  On the course page Cancel and Add Course discard whatever the
    form held: after any action that calls no backend (opening a record,
    typing, Add Course, Cancel), Cancel leaves the page exactly as Cancel
    alone would, and Add Course exactly as Add Course alone would: the
    draft empty, no editing identifier. *)
Theorem cancel_and_add_discard_the_draft :
  forall (env : Env) (a : AdminCoursesPage.Action) (st : AdminCoursesPage.State),
    a <> AdminCoursesPage.SubmitForm ->
    (forall course, a <> AdminCoursesPage.ClickDelete course) ->
    run (perform (AdminCoursesPage.handle env) [a; AdminCoursesPage.ClickCancel]) st
      = run (AdminCoursesPage.handle env AdminCoursesPage.ClickCancel) st /\
    run (perform (AdminCoursesPage.handle env) [a; AdminCoursesPage.ClickAddCourse]) st
      = run (AdminCoursesPage.handle env AdminCoursesPage.ClickAddCourse) st /\
    AdminCoursesPage.courseData_of
      (state_after (AdminCoursesPage.handle env AdminCoursesPage.ClickAddCourse) st)
      = CourseData.mk "" "" 0%float "" "" "" "" /\
    AdminCoursesPage.editId
      (state_after (AdminCoursesPage.handle env AdminCoursesPage.ClickAddCourse) st)
      = None /\
    AdminCoursesPage.isModalOpen
      (state_after (AdminCoursesPage.handle env AdminCoursesPage.ClickAddCourse) st)
      = true.
Proof.
  intros env a st Hs Hd.
  destruct a as [|course|course| | |v|v|v|v|v|v|v];
    try (now elim Hs); try (now elim (Hd course));
    (split; [|split; [|split; [|split]]]);
    vm_compute; reflexivity.
Qed.

Lemma cancel_and_add_discard_the_draft_witness :
  state_after
    (perform (AdminCoursesPage.handle (Samples.accepting Samples.backend_up))
       [AdminCoursesPage.ClickEdit Samples.populated_course;
        AdminCoursesPage.ClickCancel])
    AdminCoursesPage.initial
  = AdminCoursesPage.initial.
Proof.
  destruct (cancel_and_add_discard_the_draft (Samples.accepting Samples.backend_up)
              (AdminCoursesPage.ClickEdit Samples.populated_course)
              AdminCoursesPage.initial) as (C & _);
    try (intros; intro E; discriminate E).
  unfold state_after. rewrite C. reflexivity.
Defined.

(** ** What the pages never read *)

(** X13.  The course page never reads [localStorage]: with the same
    backend and the same answers to the prompts, every action and the
    loads on mount do the same whatever is stored.  On the dashboard the
    same holds of every action but the submit, the delete included, and of
    the two loads on mount; on the student page it holds of the load of the
    announcements. *)
Theorem storage_is_read_by_submit_and_guards_only :
  forall (b : Backend) (answers : string -> bool)
         (stored stored' : string -> option string),
    (forall (a : AdminCoursesPage.Action) (st : AdminCoursesPage.State),
        run (AdminCoursesPage.handle (mkEnv b answers stored) a) st
        = run (AdminCoursesPage.handle (mkEnv b answers stored') a) st) /\
    (forall st : AdminCoursesPage.State,
        run (AdminCoursesPage.mount (mkEnv b answers stored)) st
        = run (AdminCoursesPage.mount (mkEnv b answers stored')) st) /\
    (forall (a : AdminDashboardPage.Action) (st : AdminDashboardPage.State),
        a <> AdminDashboardPage.ClickSubmit ->
        run (AdminDashboardPage.handle (mkEnv b answers stored) a) st
        = run (AdminDashboardPage.handle (mkEnv b answers stored') a) st) /\
    (forall st : AdminDashboardPage.State,
        run (AdminDashboardPage.mount (mkEnv b answers stored)) st
        = run (AdminDashboardPage.mount (mkEnv b answers stored')) st) /\
    (forall st : StudentDashboard.State,
        run (StudentDashboard.fetchAnnouncements (mkEnv b answers stored)) st
        = run (StudentDashboard.fetchAnnouncements (mkEnv b answers stored')) st).
Proof.
  intros b answers stored stored'.
  split; [|split; [|split; [|split]]].
  - intros a st. destruct a; run_handler; reflexivity.
  - intros st. run_handler. reflexivity.
  - intros a st H. destruct a; try (now elim H); run_handler; reflexivity.
  - intros st. run_handler. reflexivity.
  - intros st. run_handler. reflexivity.
Qed.

Lemma storage_is_read_by_submit_and_guards_only_witness :
  run (AdminDashboardPage.handle
         (mkEnv Samples.backend_up (fun _ => true) Samples.storage)
         (AdminDashboardPage.ClickDelete Samples.notice))
    Samples.dashboard
  = run (AdminDashboardPage.handle
           (mkEnv Samples.backend_up (fun _ => true) (fun _ => None))
           (AdminDashboardPage.ClickDelete Samples.notice))
      Samples.dashboard.
Proof.
  destruct (storage_is_read_by_submit_and_guards_only Samples.backend_up
              (fun _ => true) Samples.storage (fun _ => None))
    as (_ & _ & D & _).
  apply D. intro E. discriminate E.
Defined.
